(** * Local RAG system: the loader, the ingestion scripts and the query loop

    A shallow embedding of [obsidian_loader.py], [rag_setup.py],
    [add_to_memory.py] and [rag_main.py].  The scripts are glue around
    external collaborators (the vault's REST API, the text splitter, the
    embedding model, the Chroma store, the chat model); each collaborator is
    an oracle bound in a [Section], and every effect of the scripts (a
    printed line, an HTTP request, a constructor call, a store update) is
    recorded in the trace of an explicit world. *)

From Stdlib Require Import ZArith QArith Ascii.
From stdpp Require Import base strings list gmap pretty.

Set Warnings "-register-all".

Open Scope Z_scope.

(** ** Python text *)

(** Text is a [string].  On the console, whose lines are stripped and
    lowered, a character is a code point below 256, the range [ascii]
    covers; paths and contents are only compared, taken apart at a prefix or
    a suffix and joined, which any encoding of their characters allows. *)

Definition nl : string := String "010"%char "".

(** [str.isspace] on one code point below 256. *)
Definition isspace (c : ascii) : bool :=
  match c with
  | "009" | "010" | "011" | "012" | "013"
  | "028" | "029" | "030" | "031" | " "
  | "133" | "160" => true
  | _ => false
  end%char.

(** [str.lower] on one code point below 256: A-Z, and the Latin-1 capitals
    192-222 but the multiplication sign 215, move up by 32. *)
Definition lower_char (c : ascii) : ascii :=
  let n := N_of_ascii c in
  if ((65 <=? n) && (n <=? 90))%N then ascii_of_N (n + 32)
  else if ((192 <=? n) && (n <=? 222) && negb (n =? 215))%N
       then ascii_of_N (n + 32)
  else c.

Fixpoint lower (s : string) : string :=
  match s with
  | EmptyString => EmptyString
  | String c s' => String (lower_char c) (lower s')
  end.

Fixpoint lstrip (s : string) : string :=
  match s with
  | EmptyString => EmptyString
  | String c s' => if isspace c then lstrip s' else s
  end.

Fixpoint rstrip (s : string) : string :=
  match s with
  | EmptyString => EmptyString
  | String c s' =>
      match rstrip s' with
      | EmptyString => if isspace c then EmptyString else String c EmptyString
      | r => String c r
      end
  end.

(** [s.strip()] *)
Definition strip (s : string) : string := rstrip (lstrip s).

(** [s.startswith(p)] *)
Fixpoint startswith (s p : string) : bool :=
  match p, s with
  | EmptyString, _ => true
  | String _ _, EmptyString => false
  | String a p', String b s' => if decide (a = b) then startswith s' p' else false
  end.

(** [s.endswith(p)] *)
Definition endswith (s p : string) : bool :=
  startswith (String.rev s) (String.rev p).

(** [p in s] for strings. *)
Fixpoint contains (s p : string) : bool :=
  startswith s p ||
  match s with
  | EmptyString => false
  | String _ s' => contains s' p
  end.

(** [c * n] for a one character string. *)
Fixpoint repeat_char (c : ascii) (n : nat) : string :=
  match n with
  | O => EmptyString
  | S n' => String c (repeat_char c n')
  end.

(** [", ".join(l)] *)
Fixpoint join (sep : string) (l : list string) : string :=
  match l with
  | [] => ""
  | [x] => x
  | x :: l' => x +:+ sep +:+ join sep l'
  end.

(** ** Python values and exceptions *)

(** The values [Response.json()] decodes.  A [dict] keeps its insertion
    order, which iterating over it observes.  A JSON number is an [int] or,
    written with a fraction or an exponent, a [float]; no operation of the
    scripts looks inside one. *)
Inductive pyval :=
| PNone
| PBool (b : bool)
| PInt (z : Z)
| PFloat (q : Q)
| PStr (s : string)
| PList (l : list pyval)
| PDict (kv : list (string * pyval)).

(** An exception deriving from [Exception]: its class and [str(e)].
    [KeyboardInterrupt] and [SystemExit], which no handler of the scripts
    catches, stay outside the model. *)
Record exn := Exn { exn_class : string; exn_str : string }.

(** [str(x)] inside an f-string, for a value that is a string or [None]. *)
Definition str_opt (o : option string) : string := default "None" o.

Fixpoint dict_get (kv : list (string * pyval)) (key : string) : option pyval :=
  match kv with
  | [] => None
  | (k, v) :: kv' => if decide (k = key) then Some v else dict_get kv' key
  end.

(** [v[key]] for a string [key]. *)
Definition py_getitem (v : pyval) (key : string) : exn + pyval :=
  match v with
  | PDict kv =>
      match dict_get kv key with
      | Some x => inr x
      | None => inl (Exn "KeyError" ("'" +:+ key +:+ "'"))
      end
  | PList _ => inl (Exn "TypeError" "list indices must be integers or slices, not str")
  | PStr _ => inl (Exn "TypeError" "string indices must be integers, not 'str'")
  | PNone => inl (Exn "TypeError" "'NoneType' object is not subscriptable")
  | PBool _ => inl (Exn "TypeError" "'bool' object is not subscriptable")
  | PInt _ => inl (Exn "TypeError" "'int' object is not subscriptable")
  | PFloat _ => inl (Exn "TypeError" "'float' object is not subscriptable")
  end.

Fixpoint chars (s : string) : list pyval :=
  match s with
  | EmptyString => []
  | String c s' => PStr (String c EmptyString) :: chars s'
  end.

(** The items a [for] loop over [v] visits. *)
Definition py_iter (v : pyval) : exn + list pyval :=
  match v with
  | PList l => inr l
  | PDict kv => inr (map (fun p => PStr (fst p)) kv)
  | PStr s => inr (chars s)
  | PNone => inl (Exn "TypeError" "'NoneType' object is not iterable")
  | PBool _ => inl (Exn "TypeError" "'bool' object is not iterable")
  | PInt _ => inl (Exn "TypeError" "'int' object is not iterable")
  | PFloat _ => inl (Exn "TypeError" "'float' object is not iterable")
  end.

(** The error of [v.startswith(p)] on a value that is no [str]: only a
    [str] has the method. *)
Definition no_attribute (v : pyval) (attr : string) : exn :=
  let cls := match v with
             | PNone => "NoneType" | PBool _ => "bool" | PInt _ => "int"
             | PFloat _ => "float"
             | PStr _ => "str" | PList _ => "list" | PDict _ => "dict"
             end in
  Exn "AttributeError" ("'" +:+ cls +:+ "' object has no attribute '" +:+ attr +:+ "'").

(** [os.getenv(name)] and [os.getenv(name, default)] over the process
    environment, as it is once [load_dotenv()] has run. *)
Definition getenv (env : gmap string string) (name : string) : option string :=
  env !! name.

Definition getenv_default (env : gmap string string) (name dflt : string) : string :=
  default dflt (env !! name).

(** ** The objects of the libraries *)

(** [langchain.schema.Document] *)
Record Document := {
  page_content : pyval;
  metadata : gmap string pyval
}.

Record OllamaEmbeddings := {
  emb_model : string;
  emb_base_url : string
}.

Record Chroma := {
  persist_directory : string;
  embedding_function : OllamaEmbeddings;
  collection_name : string
}.

Record ChatOllama := {
  llm_model : string;
  llm_base_url : string;
  temperature : Q
}.

(** [vector_store.as_retriever(search_type=..., search_kwargs=...)] *)
Record Retriever := {
  vectorstore : Chroma;
  search_type : string;
  search_kwargs : gmap string Z
}.

Record RecursiveCharacterTextSplitter := {
  chunk_size : Z;
  chunk_overlap : Z;
  separators : list string
}.

(** What the store keeps for one chunk. *)
Record VectorRecord := {
  vector : list Q;
  chunk : Document
}.

(** [requests.Response]: the status and what [.json()] gives. *)
Record Response := {
  status_code : Z;
  json : exn + pyval
}.

(** ** The world *)

Inductive event :=
| EPrint (line : string)
| EInput (prompt : string)
| EHttpGet (url : string) (headers : gmap string string)
| ESplit (splitter : RecursiveCharacterTextSplitter) (docs : list Document)
| ENewEmbeddings (e : OllamaEmbeddings)
| ENewChroma (c : Chroma)
| ENewChat (l : ChatOllama)
| EEmbedDocuments (e : OllamaEmbeddings) (chunks : list Document)
| EStoreAdd (c : Chroma) (records : list VectorRecord)
| ERetrieve (c : Chroma) (k : Z) (question : string)
| EGenerate (l : ChatOllama) (prompt : string).

(** The trace of effects so far; the persisted collections, keyed by
    directory and collection name, each in insertion order; and what the
    store library answers when it must refuse: the error [Chroma(...)]
    raises for a store it cannot open (a collection name it does not
    allow, a directory it cannot use), and the error it raises for records
    it cannot add. *)
Record World := {
  trace : list event;
  chroma_db : gmap (string * string) (list VectorRecord);
  chroma_refuses : Chroma -> option exn;
  chroma_rejects : Chroma -> list VectorRecord -> option exn
}.

Definition collection (w : World) (c : Chroma) : list VectorRecord :=
  default [] (chroma_db w !! (persist_directory c, collection_name c)).

(** ** Computations that print, raise and update the store *)

Inductive outcome (A : Type) :=
| Return (a : A)
| Raise (e : exn).
Arguments Return {A} a.
Arguments Raise {A} e.

Definition M (A : Type) : Type := World -> outcome A * World.

Definition ret {A} (a : A) : M A := fun w => (Return a, w).

Definition raise {A} (e : exn) : M A := fun w => (Raise e, w).

Definition bind {A B} (m : M A) (k : A -> M B) : M B :=
  fun w =>
    match m w with
    | (Return a, w') => k a w'
    | (Raise e, w') => (Raise e, w')
    end.

(** [try: body  except Exception as e: handler] *)
Definition try_except {A} (body : M A) (handler : exn -> M A) : M A :=
  fun w =>
    match body w with
    | (Return a, w') => (Return a, w')
    | (Raise e, w') => handler e w'
    end.

Definition emit (ev : event) : M unit :=
  fun w => (Return tt, {| trace := trace w ++ [ev];
                          chroma_db := chroma_db w;
                          chroma_refuses := chroma_refuses w;
                          chroma_rejects := chroma_rejects w |}).

(** Looking something up in the world. *)
Definition ask {A} (f : World -> A) : M A := fun w => (Return (f w), w).

Definition print (line : string) : M unit := emit (EPrint line).

Definition lift {A} (r : exn + A) : M A :=
  match r with
  | inl e => raise e
  | inr a => ret a
  end.

Declare Scope py_scope.
Delimit Scope py_scope with py.
Notation "x <~ m ;; k" := (bind m (fun x => k))
  (at level 100, m at next level, right associativity) : py_scope.
Notation "m ;;; k" := (bind m (fun _ => k))
  (at level 100, right associativity) : py_scope.
Open Scope py_scope.

Definition is_print (ev : event) : bool :=
  match ev with EPrint _ => true | _ => false end.

(** An event of the embedding provider: built or asked to embed. *)
Definition is_embedding_event (ev : event) : bool :=
  match ev with
  | ENewEmbeddings _ | EEmbedDocuments _ _ => true
  | _ => false
  end.

(** An event of the vector store: opened, written or searched. *)
Definition is_store_event (ev : event) : bool :=
  match ev with
  | ENewChroma _ | EStoreAdd _ _ | ERetrieve _ _ _ => true
  | _ => false
  end.

(** An event of the retrieval and generation chain. *)
Definition is_chain_event (ev : event) : bool :=
  match ev with
  | ERetrieve _ _ _ | EGenerate _ _ => true
  | _ => false
  end.

(** ** obsidian_loader.py *)

Record ObsidianDocumentLoader := {
  api_url : option string;
  api_key : option string;
  vault_name : option string
}.

(** [ObsidianDocumentLoader.__init__] *)
Definition __init__ (env : gmap string string) : ObsidianDocumentLoader :=
  {| api_url := getenv env "OBSIDIAN_API_URL";
     api_key := getenv env "OBSIDIAN_API_KEY";
     vault_name := getenv env "OBSIDIAN_VAULT_NAME" |}.

Definition opt_val (o : option string) : pyval :=
  match o with
  | Some s => PStr s
  | None => PNone
  end.

Section Loader.

(** [requests.get(url, headers=headers)]: it raises, or it answers.  The
    vault answers the same request the same way during one load. *)
Variable requests_get : string -> gmap string string -> exn + Response.

Definition http_get (url : string) (headers : gmap string string) : M Response :=
  emit (EHttpGet url headers) ;;;
  lift (requests_get url headers).

Definition auth_headers (self : ObsidianDocumentLoader) : gmap string string :=
  {[ "Authorization" := "Bearer " +:+ str_opt (api_key self) ]}.

Definition vault_url (self : ObsidianDocumentLoader) : string :=
  str_opt (api_url self) +:+ "/vault".

Definition read_url (self : ObsidianDocumentLoader) (path : string) : string :=
  str_opt (api_url self) +:+ "/vault/read?file=" +:+ path.

Definition make_document (self : ObsidianDocumentLoader)
    (path : string) (content : pyval) : Document :=
  {| page_content := content;
     metadata := {[ "source" := PStr path;
                    "vault" := opt_val (vault_name self);
                    "type" := PStr "documentation" ]} |}.

(** [Document(page_content=content, metadata=...)]: the library checks that
    the content is a [str] and raises otherwise; the text of the error is
    the library's and is cut short here. *)
Definition new_document (self : ObsidianDocumentLoader)
    (path : string) (content : pyval) : exn + Document :=
  match content with
  | PStr _ => inr (make_document self path content)
  | _ => inl (Exn "ValidationError"
                ("1 validation error for Document" +:+ nl +:+ "page_content" +:+ nl +:+
                 "  Input should be a valid string"))
  end.

(** The [try] of lines 41-62 for a file whose path passed the filter. *)
Definition read_file (self : ObsidianDocumentLoader) (path : string)
    (documents : list Document) : M (list Document) :=
  try_except
    (file_response <~ http_get (read_url self path) (auth_headers self) ;;
     if status_code file_response =? 200 then
       body <~ lift (json file_response) ;;
       content <~ lift (py_getitem body "content") ;;
       doc <~ lift (new_document self path content) ;;
       print ("✅ Loaded: " +:+ path) ;;;
       ret (documents ++ [doc])
     else ret documents)
    (fun e =>
       print ("⚠️ Error loading " +:+ path +:+ ": " +:+ exn_str e) ;;;
       ret documents).

(** One turn of the [for] loop of line 39.  [file["path"]] raises on a
    value that is no [dict] or lacks the key, [.startswith] on a path that
    is no [str]; both are outside the inner [try]. *)
Definition load_file (self : ObsidianDocumentLoader) (folder_path : string)
    (file : pyval) (documents : list Document) : M (list Document) :=
  p <~ lift (py_getitem file "path") ;;
  match p with
  | PStr path =>
      if startswith path folder_path && endswith path ".md"
      then read_file self path documents
      else ret documents
  | v => raise (no_attribute v "startswith")
  end.

Fixpoint for_files (self : ObsidianDocumentLoader) (folder_path : string)
    (files : list pyval) (documents : list Document) : M (list Document) :=
  match files with
  | [] => ret documents
  | file :: files' =>
      documents' <~ load_file self folder_path file documents ;;
      for_files self folder_path files' documents'
  end.

Definition load_from_path (self : ObsidianDocumentLoader)
    (folder_path : string) : M (list Document) :=
  try_except
    (response <~ http_get (vault_url self) (auth_headers self) ;;
     if negb (status_code response =? 200) then
       print ("❌ Error connecting to Obsidian: " +:+ pretty (status_code response)) ;;;
       ret []
     else
       files <~ lift (json response) ;;
       items <~ lift (py_iter files) ;;
       for_files self folder_path items [])
    (fun e =>
       print ("❌ Error: " +:+ exn_str e) ;;;
       ret []).

Definition load_all_vault (self : ObsidianDocumentLoader) : M (list Document) :=
  load_from_path self "".

End Loader.

(** ** Constructors and calls of the libraries *)

Definition new_embeddings (model base_url : string) : M OllamaEmbeddings :=
  let e := {| emb_model := model; emb_base_url := base_url |} in
  emit (ENewEmbeddings e) ;;; ret e.

(** [Chroma(persist_directory=..., embedding_function=..., collection_name=...)]
    opens the store and raises when it cannot. *)
Definition new_chroma (dir : string) (emb : OllamaEmbeddings) (name : string) : M Chroma :=
  let c := {| persist_directory := dir; embedding_function := emb;
              collection_name := name |} in
  emit (ENewChroma c) ;;;
  refusal <~ ask (fun w => chroma_refuses w c) ;;
  match refusal with
  | Some e => raise e
  | None => ret c
  end.

Definition new_chat (model base_url : string) (temp : Q) : M ChatOllama :=
  let l := {| llm_model := model; llm_base_url := base_url; temperature := temp |} in
  emit (ENewChat l) ;;; ret l.

(** The separators of a splitter built without the [separators] argument. *)
Definition default_separators : list string := [nl +:+ nl; nl; " "; ""].

Definition is_none (v : pyval) : bool :=
  match v with
  | PNone => true
  | _ => false
  end.

(** The form in which the store keeps a chunk: a metadata entry whose value
    is [None] is dropped. *)
Definition stored_chunk (d : Document) : Document :=
  {| page_content := page_content d;
     metadata := filter (fun kv => is_none (snd kv) = false) (metadata d) |}.

Definition stored (r : VectorRecord) : VectorRecord :=
  {| vector := vector r; chunk := stored_chunk (chunk r) |}.

(** The records of a collection are kept in insertion order; a record added
    gets a fresh identifier, so adding never overwrites. *)
Definition store_write (c : Chroma) (records : list VectorRecord) : M unit :=
  fun w =>
    (Return tt,
     {| trace := trace w;
        chroma_db := <[ (persist_directory c, collection_name c) :=
                          collection w c ++ records ]> (chroma_db w);
        chroma_refuses := chroma_refuses w;
        chroma_rejects := chroma_rejects w |}).

(** Handing records to the store: it raises on an empty list, it raises
    when it cannot add them, and it keeps them otherwise. *)
Definition store_add (c : Chroma) (records : list VectorRecord) : M unit :=
  emit (EStoreAdd c records) ;;;
  match records with
  | [] => raise (Exn "ValueError" "Expected IDs to be a non-empty list, got 0 IDs")
  | _ :: _ =>
      rejection <~ ask (fun w => chroma_rejects w c records) ;;
      match rejection with
      | Some e => raise e
      | None => store_write c (map stored records)
      end
  end.

Section Pipeline.

Variable requests_get : string -> gmap string string -> exn + Response.

(** [splitter.split_documents(documents)] *)
Variable split_documents :
  RecursiveCharacterTextSplitter -> list Document -> exn + list Document.

(** The embedding model on the text of one chunk. *)
Variable embed : OllamaEmbeddings -> pyval -> exn + list Q.

(** [datetime.now().strftime("%Y-%m-%d")] *)
Variable today_date : string.

Definition split (splitter : RecursiveCharacterTextSplitter)
    (documents : list Document) : M (list Document) :=
  emit (ESplit splitter documents) ;;;
  lift (split_documents splitter documents).

Fixpoint embed_all (emb : OllamaEmbeddings) (chunks : list Document)
    : exn + list VectorRecord :=
  match chunks with
  | [] => inr []
  | c :: chunks' =>
      match embed emb (page_content c) with
      | inl e => inl e
      | inr v =>
          match embed_all emb chunks' with
          | inl e => inl e
          | inr rs => inr ({| vector := v; chunk := c |} :: rs)
          end
      end
  end.

(** [vector_store.add_documents(chunks)]: embed every chunk, then add the
    records. *)
Definition add_documents (c : Chroma) (chunks : list Document) : M unit :=
  emit (EEmbedDocuments (embedding_function c) chunks) ;;;
  records <~ lift (embed_all (embedding_function c) chunks) ;;
  store_add c records.

(** [Chroma.from_documents(documents=..., embedding=..., ...)] *)
Definition from_documents (chunks : list Document) (emb : OllamaEmbeddings)
    (dir name : string) : M Chroma :=
  c <~ new_chroma dir emb name ;;
  add_documents c chunks ;;;
  ret c.

(** *** rag_setup.py *)

Definition setup_vector_database (env : gmap string string) : M (option Chroma) :=
  print ("🚀 Starting RAG Setup..." +:+ nl) ;;;
  print "📂 Loading documents from Obsidian..." ;;;
  let loader := __init__ env in
  documents <~ load_all_vault requests_get loader ;;
  match documents with
  | [] =>
      print "❌ No documents found!" ;;;
      ret None
  | _ :: _ =>
      print ("✅ Loaded " +:+ pretty (length documents) +:+ " documents" +:+ nl) ;;;
      print "✂️ Splitting documents into chunks..." ;;;
      let splitter := {| chunk_size := 1000; chunk_overlap := 200;
                         separators := [nl +:+ nl; nl; " "; ""] |} in
      chunks <~ split splitter documents ;;
      print ("✅ Created " +:+ pretty (length chunks) +:+ " chunks" +:+ nl) ;;;
      print "🧠 Initializing Ollama embeddings..." ;;;
      embeddings <~ new_embeddings
                      (getenv_default env "EMBEDDING_MODEL" "nomic-embed-text")
                      (getenv_default env "OLLAMA_BASE_URL" "http://localhost:11434") ;;
      print ("✅ Embeddings initialized" +:+ nl) ;;;
      print "💾 Creating Chroma vector store..." ;;;
      vector_store <~ from_documents chunks embeddings
                        (getenv_default env "CHROMA_PATH" "./chroma_data")
                        (getenv_default env "COLLECTION_NAME" "project-memory") ;;
      print ("✅ Vector store created with " +:+ pretty (length chunks) +:+ " embeddings!") ;;;
      print ("📦 Saved to: " +:+ str_opt (getenv env "CHROMA_PATH") +:+ nl) ;;;
      ret (Some vector_store)
  end.

(** *** add_to_memory.py *)

Definition add_new_documents_to_memory (env : gmap string string) : M unit :=
  print ("📝 Adding new documents to memory..." +:+ nl) ;;;
  let loader := __init__ env in
  documents <~ load_from_path requests_get loader ("Daily/" +:+ today_date) ;;
  match documents with
  | [] =>
      print "⚠️ No new documents found for today" ;;;
      ret tt
  | _ :: _ =>
      let splitter := {| chunk_size := 1000; chunk_overlap := 200;
                         separators := default_separators |} in
      chunks <~ split splitter documents ;;
      embeddings <~ new_embeddings
                      (getenv_default env "EMBEDDING_MODEL" "nomic-embed-text")
                      (getenv_default env "OLLAMA_BASE_URL" "http://localhost:11434") ;;
      vector_store <~ new_chroma
                        (getenv_default env "CHROMA_PATH" "./chroma_data")
                        embeddings
                        (getenv_default env "COLLECTION_NAME" "project-memory") ;;
      add_documents vector_store chunks ;;;
      print ("✅ Added " +:+ pretty (length chunks) +:+ " new chunks to memory!") ;;;
      print ("💾 Memory updated successfully!" +:+ nl)
  end.

End Pipeline.

(** ** rag_main.py *)

(** [template.format] with keyword arguments, for a template whose fields
    are plain names in single braces (doubled braces and format
    specifications, which the script's template has none of, are left out);
    a field without a value is a [KeyError]. *)
Fixpoint format_go (t : string) (field : option string) (vars : gmap string string)
    : exn + string :=
  match t with
  | EmptyString =>
      match field with
      | None => inr EmptyString
      | Some _ => inl (Exn "ValueError" "expected '}' before end of string")
      end
  | String c t' =>
      match field with
      | None =>
          if decide (c = "{"%char) then format_go t' (Some EmptyString) vars
          else if decide (c = "}"%char) then
            inl (Exn "ValueError" "Single '}' encountered in format string")
          else match format_go t' None vars with
               | inl e => inl e
               | inr r => inr (String c r)
               end
      | Some name =>
          if decide (c = "}"%char) then
            match vars !! String.rev name with
            | None => inl (Exn "KeyError" ("'" +:+ String.rev name +:+ "'"))
            | Some v =>
                match format_go t' None vars with
                | inl e => inl e
                | inr r => inr (v +:+ r)
                end
            end
          else format_go t' (Some (String c name)) vars
      end
  end.

Definition format (t : string) (vars : gmap string string) : exn + string :=
  format_go t None vars.

Definition template : string :=
  "You are a technical assistant with access to project memory." +:+ nl +:+
  "Based on the following context from previous work sessions, answer the question." +:+ nl +:+
  nl +:+
  "Context:" +:+ nl +:+
  "{context}" +:+ nl +:+
  nl +:+
  "Question: {question}" +:+ nl +:+
  nl +:+
  "Answer with specific details, commands, configurations, and recommendations when relevant:".

(** The chain [{"context": retriever, "question": RunnablePassthrough()} | prompt | llm]. *)
Record Chain := {
  chain_retriever : Retriever;
  chain_prompt : string;
  chain_llm : ChatOllama
}.

Definition initialize_rag_system (env : gmap string string) : M (ChatOllama * Retriever) :=
  print ("🔄 Initializing RAG system..." +:+ nl) ;;;
  embeddings <~ new_embeddings
                  (getenv_default env "EMBEDDING_MODEL" "nomic-embed-text")
                  (getenv_default env "OLLAMA_BASE_URL" "http://localhost:11434") ;;
  vector_store <~ new_chroma
                    (getenv_default env "CHROMA_PATH" "./chroma_data")
                    embeddings
                    (getenv_default env "COLLECTION_NAME" "project-memory") ;;
  llm <~ new_chat
           (getenv_default env "LLM_MODEL" "llama3.1:8b")
           (getenv_default env "OLLAMA_BASE_URL" "http://localhost:11434")
           (1 # 10)%Q ;;
  let retriever := {| vectorstore := vector_store;
                      search_type := "similarity";
                      search_kwargs := {[ "k" := 5 ]} |} in
  print ("✅ RAG system initialized!" +:+ nl) ;;;
  ret (llm, retriever).

Definition create_rag_chain (llm : ChatOllama) (retriever : Retriever) : Chain :=
  {| chain_retriever := retriever;
     chain_prompt := template;
     chain_llm := llm |}.

Section Query.

(** [vector_store.similarity_search(question, k=k)] on the records of the
    collection: the question is embedded and the store searched. *)
Variable similarity_search :
  Chroma -> list VectorRecord -> string -> Z -> exn + list Document.

(** [repr(doc)] of the library's [Document]. *)
Variable repr_document : Document -> string.

(** The chat model on a prompt: the [content] of its answer. *)
Variable chat : ChatOllama -> string -> exn + string.

(** [retriever.invoke(question)]: the search takes its [k] from
    [search_kwargs], the library's own default being 4. *)
Definition retriever_invoke (r : Retriever) (question : string) : M (list Document) :=
  let k := default 4 (search_kwargs r !! "k") in
  fun w =>
    (emit (ERetrieve (vectorstore r) k question) ;;;
     lift (similarity_search (vectorstore r) (collection w (vectorstore r)) question k)) w.

(** [str(results)]: what [{context}] is replaced by. *)
Definition context_block (results : list Document) : string :=
  "[" +:+ join ", " (map repr_document results) +:+ "]".

(** The prompt the chain hands to the model. *)
Definition assemble (t : string) (results : list Document) (question : string)
    : exn + string :=
  format t {[ "context" := context_block results; "question" := question ]}.

Definition llm_invoke (l : ChatOllama) (prompt : string) : M string :=
  emit (EGenerate l prompt) ;;;
  lift (chat l prompt).

(** [chain.invoke(question)] *)
Definition chain_invoke (ch : Chain) (question : string) : M string :=
  results <~ retriever_invoke (chain_retriever ch) question ;;
  prompt <~ lift (assemble (chain_prompt ch) results question) ;;
  llm_invoke (chain_llm ch) prompt.

(** The [while True] loop of [main] over the lines the console still
    holds; [input] raises [EOFError] when none is left. *)
Fixpoint query_loop (chain : Chain) (lines : list string) : M unit :=
  match lines with
  | [] =>
      emit (EInput "You: ") ;;;
      raise (Exn "EOFError" "EOF when reading a line")
  | line :: lines' =>
      emit (EInput "You: ") ;;;
      let user_input := strip line in
      if decide (lower user_input = "quit") then
        print "Goodbye!"
      else if decide (user_input = "") then
        query_loop chain lines'
      else
        print (nl +:+ "🤔 Searching memory and thinking..." +:+ nl) ;;;
        try_except
          (response <~ chain_invoke chain user_input ;;
           print ("Assistant: " +:+ response +:+ nl))
          (fun e => print ("❌ Error: " +:+ exn_str e +:+ nl)) ;;;
        query_loop chain lines'
  end.

Definition main (env : gmap string string) (lines : list string) : M unit :=
  print (repeat_char "=" 60) ;;;
  print "🚀 Local RAG System - Technical Memory Assistant" ;;;
  print (repeat_char "=" 60) ;;;
  print ("Type 'quit' to exit" +:+ nl) ;;;
  p <~ initialize_rag_system env ;;
  let chain := create_rag_chain (fst p) (snd p) in
  query_loop chain lines.

End Query.

(** ** Vocabulary of the statements *)

(** The world with more events in its trace and the same store. *)
Definition log (w : World) (evs : list event) : World :=
  {| trace := trace w ++ evs;
     chroma_db := chroma_db w;
     chroma_refuses := chroma_refuses w;
     chroma_rejects := chroma_rejects w |}.

(** Nothing has happened, nothing is stored, the store refuses nothing. *)
Definition empty_world : World :=
  {| trace := [];
     chroma_db := ∅;
     chroma_refuses := fun _ => None;
     chroma_rejects := fun _ _ => None |}.

(** A computation whose result and events do not depend on the world it
    starts in, and which leaves the store alone. *)
Definition uniform {A} (m : M A) : Prop :=
  ∃ r evs, ∀ w, m w = (r, log w evs).

(** A relation between the worlds before and after every run. *)
Definition steps (R : relation World) {A} (m : M A) : Prop :=
  ∀ w, R w (snd (m w)).

(** Only events satisfying [P] are added to the trace. *)
Definition emits_only (P : event → Prop) : relation World :=
  λ w w', ∃ evs, trace w' = trace w ++ evs ∧ Forall P evs.

(** No record leaves a collection and the stored ones keep their place. *)
Definition store_grows : relation World :=
  λ w w', ∀ c, collection w c `prefix_of` collection w' c.

Section LoaderVocabulary.

Variable requests_get : string -> gmap string string -> exn + Response.
Variable self : ObsidianDocumentLoader.

(** What the loader returns for a folder, and what it does meanwhile. *)
Definition loaded_documents (folder_path : string) : list Document :=
  match fst (load_from_path requests_get self folder_path empty_world) with
  | Return documents => documents
  | Raise _ => []
  end.

Definition loader_events (folder_path : string) : list event :=
  trace (snd (load_from_path requests_get self folder_path empty_world)).

Definition read_request (path : string) : event :=
  EHttpGet (read_url self path) (auth_headers self).

Definition vault_request : event :=
  EHttpGet (vault_url self) (auth_headers self).

(** Reading the file at [path] succeeds with [content]. *)
Definition fetched (path : string) (content : pyval) : Prop :=
  ∃ r body,
    requests_get (read_url self path) (auth_headers self) = inr r ∧
    status_code r = 200 ∧
    json r = inr body ∧
    py_getitem body "content" = inr content.

(** The paths line 40 lets through. *)
Definition selected (folder_path path : string) : bool :=
  startswith path folder_path && endswith path ".md".

(** The requests and lines of a load from [folder_path]: the listing, the
    reading of a selected file, a printed line. *)
Definition loader_event (folder_path : string) (ev : event) : Prop :=
  match ev with
  | EPrint _ => True
  | EHttpGet url headers =>
      headers = auth_headers self ∧
      (url = vault_url self ∨
       ∃ path, url = read_url self path ∧ selected folder_path path = true)
  | _ => False
  end.

(** The documents the loop holds are made from selected, fetched files of
    the list it runs over. *)
Definition made_from (folder_path : string) (all : list pyval) (d : Document) : Prop :=
  ∃ file path content,
    file ∈ all ∧
    py_getitem file "path" = inr (PStr path) ∧
    selected folder_path path = true ∧
    fetched path content ∧
    d = make_document self path content.

(** The vault lists [items], one of which is a file at [path]. *)
Definition listed (path : string) : Prop :=
  ∃ r files items file,
    requests_get (vault_url self) (auth_headers self) = inr r ∧
    status_code r = 200 ∧
    json r = inr files ∧
    py_iter files = inr items ∧
    file ∈ items ∧
    py_getitem file "path" = inr (PStr path).

End LoaderVocabulary.

(** ** What the scripts are expected to build *)

(** An event that is neither of the embedding provider nor of the store. *)
Definition quiet (ev : event) : Prop :=
  is_embedding_event ev = false ∧ is_store_event ev = false.

(** The providers and the store a script builds take each setting from the
    environment when it is there and the default otherwise. *)
Definition built_from (env : gmap string string) (ev : event) : Prop :=
  match ev with
  | ENewEmbeddings e =>
      emb_model e = default "nomic-embed-text" (env !! "EMBEDDING_MODEL") ∧
      emb_base_url e = default "http://localhost:11434" (env !! "OLLAMA_BASE_URL")
  | ENewChroma c =>
      persist_directory c = default "./chroma_data" (env !! "CHROMA_PATH") ∧
      collection_name c = default "project-memory" (env !! "COLLECTION_NAME")
  | ENewChat l =>
      llm_model l = default "llama3.1:8b" (env !! "LLM_MODEL") ∧
      llm_base_url l = default "http://localhost:11434" (env !! "OLLAMA_BASE_URL")
  | _ => True
  end.

(** The store the ingestion scripts open. *)
Definition store_of (env : gmap string string) : Chroma :=
  {| persist_directory := getenv_default env "CHROMA_PATH" "./chroma_data";
     embedding_function :=
       {| emb_model := getenv_default env "EMBEDDING_MODEL" "nomic-embed-text";
          emb_base_url := getenv_default env "OLLAMA_BASE_URL" "http://localhost:11434" |};
     collection_name := getenv_default env "COLLECTION_NAME" "project-memory" |}.

(** The chat model and the retriever the query script builds. *)
Definition chat_of (env : gmap string string) : ChatOllama :=
  {| llm_model := getenv_default env "LLM_MODEL" "llama3.1:8b";
     llm_base_url := getenv_default env "OLLAMA_BASE_URL" "http://localhost:11434";
     temperature := (1 # 10)%Q |}.

Definition retriever_of (env : gmap string string) : Retriever :=
  {| vectorstore := store_of env;
     search_type := "similarity";
     search_kwargs := {[ "k" := 5 ]} |}.

(** The splitter of the daily update. *)
Definition daily_splitter : RecursiveCharacterTextSplitter :=
  {| chunk_size := 1000; chunk_overlap := 200; separators := default_separators |}.

(** Replacement on re-ingestion, as the specification words it: no record
    stored [before] for the source [path] is among the records stored
    [after]. *)
Definition stale_records_removed (path : string)
    (before after : list VectorRecord) : Prop :=
  ∀ r, r ∈ before →
       metadata (chunk r) !! "source" = Some (PStr path) →
       r ∉ after.

(** ** A small vault *)

Definition demo_loader : ObsidianDocumentLoader :=
  {| api_url := Some "http://127.0.0.1:27123";
     api_key := Some "secret";
     vault_name := Some "notes" |}.

Definition ok (body : pyval) : exn + Response :=
  inr {| status_code := 200; json := inr body |}.

Definition not_found : exn + Response :=
  inr {| status_code := 404;
         json := inl (Exn "JSONDecodeError" "Expecting value: line 1 column 1 (char 0)") |}.

Definition file_entry (path : string) : pyval := PDict [("path", PStr path)].

Definition content_body (text : string) : pyval := PDict [("content", PStr text)].

(** No vault answers. *)
Definition vault_down (url : string) (headers : gmap string string) : exn + Response :=
  inl (Exn "ConnectionError" "Connection refused").

Definition demo_listing : list pyval :=
  [file_entry "Daily/2024-05-01/a.md";
   file_entry "Daily/2024-05-01/b.md";
   file_entry "Daily/2024-05-01/c.md";
   file_entry "Daily/2024-05-01/d.png"].

Definition read_timeout : exn := Exn "ReadTimeout" "Read timed out.".

(** A vault of four files: a note whose text is [text], a note whose
    reading times out, a third note, and a picture. *)
Definition demo_vault (text : string) (url : string) (headers : gmap string string)
    : exn + Response :=
  if decide (url = "http://127.0.0.1:27123/vault") then
    ok (PList demo_listing)
  else if decide (url = "http://127.0.0.1:27123/vault/read?file=Daily/2024-05-01/a.md") then
    ok (content_body text)
  else if decide (url = "http://127.0.0.1:27123/vault/read?file=Daily/2024-05-01/b.md") then
    inl read_timeout
  else if decide (url = "http://127.0.0.1:27123/vault/read?file=Daily/2024-05-01/c.md") then
    ok (content_body "gamma")
  else not_found.

(** The same vault when its listing ends with an entry that has no path. *)
Definition demo_vault_malformed (url : string) (headers : gmap string string)
    : exn + Response :=
  if decide (url = "http://127.0.0.1:27123/vault") then
    ok (PList [file_entry "Daily/2024-05-01/a.md"; PDict [("name", PStr "e.md")]])
  else demo_vault "alpha" url headers.

(** ** A small pipeline *)

Definition demo_env : gmap string string :=
  {[ "OBSIDIAN_API_URL" := "http://127.0.0.1:27123";
     "OBSIDIAN_API_KEY" := "secret";
     "OBSIDIAN_VAULT_NAME" := "notes" ]}.

(** A note far below the chunk size is its own single chunk. *)
Definition demo_split (splitter : RecursiveCharacterTextSplitter)
    (documents : list Document) : exn + list Document :=
  inr documents.

Definition demo_embed (emb : OllamaEmbeddings) (text : pyval) : exn + list Q :=
  match text with
  | PStr s => inr [inject_Z (Z.of_nat (String.length s))]
  | _ => inl (Exn "TypeError" "expected str")
  end.

Definition demo_record (path text : string) : VectorRecord :=
  {| vector := [inject_Z (Z.of_nat (String.length text))];
     chunk := make_document demo_loader path (PStr text) |}.

(** The world after the note a.md was ingested as "first draft", and after
    it was ingested again as "second draft" the same day. *)
Definition first_ingestion : World :=
  snd (add_new_documents_to_memory (demo_vault "first draft") demo_split demo_embed
         "2024-05-01" demo_env empty_world).

Definition second_ingestion : World :=
  snd (add_new_documents_to_memory (demo_vault "second draft") demo_split demo_embed
         "2024-05-01" demo_env first_ingestion).

(** ** A small console *)

(** The marker the specification words for a prompt built from no result:
    the text says that no relevant context was found. *)
Definition marks_no_context (block : string) : Prop :=
  contains (lower block) "no relevant context" = true.

(** A line of spaces, tabs and other blanks only. *)
Fixpoint all_space (s : string) : bool :=
  match s with
  | EmptyString => true
  | String c s' => isspace c && all_space s'
  end.

Definition demo_repr (d : Document) : string :=
  "Document(metadata={...}, page_content='...')".

Definition demo_chain : Chain := create_rag_chain (chat_of ∅) (retriever_of ∅).

(** A store that finds nothing, a store that cannot be reached, a model
    that answers and one that does not. *)
Definition search_nothing (c : Chroma) (records : list VectorRecord)
    (question : string) (k : Z) : exn + list Document :=
  inr [].

Definition search_down (c : Chroma) (records : list VectorRecord)
    (question : string) (k : Z) : exn + list Document :=
  inl (Exn "ConnectionError" "Failed to connect to Ollama").

Definition chat_answers (l : ChatOllama) (prompt : string) : exn + string :=
  inr "I do not know.".

Definition chat_down (l : ChatOllama) (prompt : string) : exn + string :=
  inl (Exn "ConnectionError" "Failed to connect to Ollama").

(** ** Vocabulary of the further statements *)

Section EntryVocabulary.

Variable requests_get : string -> gmap string string -> exn + Response.
Variable self : ObsidianDocumentLoader.

(** What the [try] of lines 41-59 comes to for the file at [path]: an
    error (of the request, of the decoding, of the lookup of the content or
    of the making of the document), nothing when the answer has another
    status than 200, or the document. *)
Definition read_result (path : string) : exn + option Document :=
  match requests_get (read_url self path) (auth_headers self) with
  | inl e => inl e
  | inr r =>
      if status_code r =? 200 then
        match json r with
        | inl e => inl e
        | inr body =>
            match py_getitem body "content" with
            | inl e => inl e
            | inr content =>
                match new_document self path content with
                | inl e => inl e
                | inr doc => inr (Some doc)
                end
            end
        end
      else inr None
  end.

(** What [read_file] returns beyond the documents it was given, and what
    it prints after its request. *)
Definition read_documents (path : string) : list Document :=
  match read_result path with
  | inr (Some doc) => [doc]
  | _ => []
  end.

Definition read_lines (path : string) : list event :=
  match read_result path with
  | inl e => [EPrint ("⚠️ Error loading " +:+ path +:+ ": " +:+ exn_str e)]
  | inr None => []
  | inr (Some _) => [EPrint ("✅ Loaded: " +:+ path)]
  end.

(** The path of an entry of the listing that has one, a [str]. *)
Definition entry_path (file : pyval) : option string :=
  match py_getitem file "path" with
  | inr (PStr path) => Some path
  | _ => None
  end.

(** The error line 40 raises on an entry without such a path. *)
Definition entry_error (file : pyval) : option exn :=
  match py_getitem file "path" with
  | inl e => Some e
  | inr (PStr _) => None
  | inr v => Some (no_attribute v "startswith")
  end.

(** The documents and the events one entry of the listing accounts for. *)
Definition entry_documents (folder_path : string) (file : pyval) : list Document :=
  match entry_path file with
  | Some path => if selected folder_path path then read_documents path else []
  | None => []
  end.

Definition entry_events (folder_path : string) (file : pyval) : list event :=
  match entry_path file with
  | Some path =>
      if selected folder_path path
      then read_request self path :: read_lines path
      else []
  | None => []
  end.

End EntryVocabulary.

Definition request_url (ev : event) : option string :=
  match ev with
  | EHttpGet url _ => Some url
  | _ => None
  end.

(** The splitter of the full-vault setup. *)
Definition setup_splitter : RecursiveCharacterTextSplitter :=
  {| chunk_size := 1000; chunk_overlap := 200;
     separators := [nl +:+ nl; nl; " "; ""] |}.

(** The exit command, as the loop tests it. *)
Definition is_quit (line : string) : bool :=
  bool_decide (lower (strip line) = "quit").

Definition eof_error : exn := Exn "EOFError" "EOF when reading a line".

(** The questions among the lines the loop reads: stripped, not blank, up
    to the first exit command. *)
Fixpoint asked (lines : list string) : list string :=
  match lines with
  | [] => []
  | line :: lines' =>
      if is_quit line then []
      else if decide (strip line = "") then asked lines'
      else strip line :: asked lines'
  end.

(** A search of the store: where, for how many, for what. *)
Definition retrieval (ev : event) : option (Chroma * Z * string) :=
  match ev with
  | ERetrieve c k question => Some (c, k, question)
  | _ => None
  end.

Definition is_generate (ev : event) : bool :=
  match ev with EGenerate _ _ => true | _ => false end.

(** The small vault with one more note in its listing, which the vault
    then answers with 404. *)
Definition demo_vault_gone (url : string) (headers : gmap string string)
    : exn + Response :=
  if decide (url = "http://127.0.0.1:27123/vault") then
    ok (PList [file_entry "Daily/2024-05-01/a.md";
               file_entry "Daily/2024-05-01/e.md";
               file_entry "Daily/2024-05-01/c.md"])
  else demo_vault "alpha" url headers.

(** A vault whose listing is an object holding the list, not the list. *)
Definition demo_vault_object (url : string) (headers : gmap string string)
    : exn + Response :=
  if decide (url = "http://127.0.0.1:27123/vault") then
    ok (PDict [("files", PList demo_listing)])
  else demo_vault "alpha" url headers.

(** A splitter and an embedding model that fail. *)
Definition split_fails (splitter : RecursiveCharacterTextSplitter)
    (documents : list Document) : exn + list Document :=
  inl (Exn "ValueError" "chunk overlap larger than chunk size").


(** ** Basic facts *)

Global Arguments emit : simpl never.
Global Arguments print : simpl never.
Global Arguments log : simpl never.
Global Arguments http_get : simpl never.
Global Arguments store_add : simpl never.
Global Arguments store_write : simpl never.
Global Arguments ask : simpl never.
Global Arguments read_file : simpl never.
Global Arguments load_file : simpl never.
Global Arguments load_from_path : simpl never.
Global Arguments split : simpl never.
Global Arguments add_documents : simpl never.
Global Arguments pretty : simpl never.
Global Arguments initialize_rag_system : simpl never.
Global Arguments retriever_invoke : simpl never.
Global Arguments chain_invoke : simpl never.
Global Arguments loaded_documents : simpl never.
Global Arguments loader_events : simpl never.

Lemma log_nil w : log w [] = w.
Proof. destruct w as [t db]. unfold log. simpl. by rewrite app_nil_r. Qed.

Lemma log_app w evs1 evs2 : log (log w evs1) evs2 = log w (evs1 ++ evs2).
Proof. unfold log. simpl. by rewrite app_assoc. Qed.

Lemma emit_log ev w : emit ev w = (Return tt, log w [ev]).
Proof. reflexivity. Qed.

Lemma print_log line w : print line w = (Return tt, log w [EPrint line]).
Proof. reflexivity. Qed.

Lemma collection_log w evs c : collection (log w evs) c = collection w c.
Proof. reflexivity. Qed.

Lemma ret_run {A} (a : A) w : ret a w = (Return a, w).
Proof. reflexivity. Qed.

Lemma raise_run {A} e w : raise (A := A) e w = (Raise e, w).
Proof. reflexivity. Qed.

Lemma ask_run {A} (f : World → A) w : ask f w = (Return (f w), w).
Proof. reflexivity. Qed.

Lemma http_get_log requests_get url headers w :
  http_get requests_get url headers w =
  (match requests_get url headers with
   | inl e => Raise e
   | inr r => Return r
   end, log w [EHttpGet url headers]).
Proof.
  unfold http_get, bind. rewrite emit_log.
  by destruct (requests_get url headers).
Qed.

(** ** Computations that only log *)

Lemma uniform_run {A} (m : M A) :
  uniform m →
  ∀ w, m w = (fst (m empty_world), log w (trace (snd (m empty_world)))).
Proof. intros (r & evs & H) w. by rewrite (H empty_world), (H w). Qed.

Lemma uniform_ret {A} (a : A) : uniform (ret a).
Proof. exists (Return a), []. intros w. by rewrite log_nil. Qed.

Lemma uniform_raise {A} e : uniform (raise (A := A) e).
Proof. exists (Raise e), []. intros w. by rewrite log_nil. Qed.

Lemma uniform_emit ev : uniform (emit ev).
Proof. by exists (Return tt), [ev]. Qed.

Lemma uniform_lift {A} (r : exn + A) : uniform (lift r).
Proof. destruct r; [apply uniform_raise | apply uniform_ret]. Qed.

Lemma uniform_bind {A B} (m : M A) (k : A → M B) :
  uniform m → (∀ a, uniform (k a)) → uniform (bind m k).
Proof.
  intros (r & evs & H) Hk. destruct r as [a | e].
  - destruct (Hk a) as (r' & evs' & H'). exists r', (evs ++ evs').
    intros w. unfold bind. by rewrite H, H', log_app.
  - exists (Raise e), evs. intros w. unfold bind. by rewrite H.
Qed.

Lemma uniform_try_except {A} (body : M A) (handler : exn → M A) :
  uniform body → (∀ e, uniform (handler e)) → uniform (try_except body handler).
Proof.
  intros (r & evs & H) Hh. destruct r as [a | e].
  - exists (Return a), evs. intros w. unfold try_except. by rewrite H.
  - destruct (Hh e) as (r' & evs' & H'). exists r', (evs ++ evs').
    intros w. unfold try_except. by rewrite H, H', log_app.
Qed.

Lemma uniform_print line : uniform (print line).
Proof. apply uniform_emit. Qed.

Create HintDb uniform.
Hint Resolve uniform_ret uniform_raise uniform_emit uniform_print uniform_lift
  uniform_bind uniform_try_except : uniform.

(** ** Relations every step of a script keeps *)

Section Steps.

Context (R : relation World) `{!PreOrder R}.

Lemma steps_ret {A} (a : A) : steps R (ret a).
Proof. intros w. cbn. reflexivity. Qed.

Lemma steps_raise {A} e : steps R (raise (A := A) e).
Proof. intros w. cbn. reflexivity. Qed.

Lemma steps_lift {A} (r : exn + A) : steps R (lift r).
Proof. destruct r; [apply steps_raise | apply steps_ret]. Qed.

Lemma steps_ask {A} (f : World → A) : steps R (ask f).
Proof. intros w. cbn. reflexivity. Qed.

Lemma steps_bind {A B} (m : M A) (k : A → M B) :
  steps R m → (∀ a, steps R (k a)) → steps R (bind m k).
Proof.
  intros Hm Hk w. unfold bind. specialize (Hm w).
  destruct (m w) as [[a | e] w1]; cbn in *; [| done].
  etrans; [exact Hm | apply Hk].
Qed.

Lemma steps_try_except {A} (body : M A) (handler : exn → M A) :
  steps R body → (∀ e, steps R (handler e)) → steps R (try_except body handler).
Proof.
  intros Hb Hh w. unfold try_except. specialize (Hb w).
  destruct (body w) as [[a | e] w1]; cbn in *; [done |].
  etrans; [exact Hb | apply Hh].
Qed.

End Steps.

Global Instance emits_only_preorder P : PreOrder (emits_only P).
Proof.
  split.
  - intros w. exists []. by rewrite app_nil_r.
  - intros w1 w2 w3 (evs1 & H1 & HP1) (evs2 & H2 & HP2).
    exists (evs1 ++ evs2). rewrite H2, H1, app_assoc.
    split; [done | by apply Forall_app].
Qed.

Lemma steps_emit (P : event → Prop) ev : P ev → steps (emits_only P) (emit ev).
Proof. intros HP w. exists [ev]. split; [done | by constructor]. Qed.

Lemma steps_print (P : event → Prop) line :
  P (EPrint line) → steps (emits_only P) (print line).
Proof. apply steps_emit. Qed.

Lemma emits_only_log (P : event → Prop) w evs :
  Forall P evs → emits_only P w (log w evs).
Proof. intros H. by exists evs. Qed.

Lemma emits_only_weaken (P Q : event → Prop) w w' :
  (∀ ev, P ev → Q ev) → emits_only P w w' → emits_only Q w w'.
Proof.
  intros HPQ (evs & H & HP). exists evs. split; [done |].
  eapply Forall_impl; eauto.
Qed.

Global Instance store_grows_preorder : PreOrder store_grows.
Proof.
  split.
  - intros w c. reflexivity.
  - intros w1 w2 w3 H1 H2 c. etrans; [apply H1 | apply H2].
Qed.

Lemma steps_emit_grows ev : steps store_grows (emit ev).
Proof. intros w c. reflexivity. Qed.

(** Splitting a goal about a script into goals about its calls. *)
Ltac steps_split :=
  lazymatch goal with
  | |- steps _ (bind _ _) =>
      apply steps_bind; [apply _ | steps_split | intros ?; steps_split]
  | |- steps _ (try_except _ _) =>
      apply steps_try_except; [apply _ | steps_split | intros ?; steps_split]
  | |- steps _ (ret _) => apply steps_ret, _
  | |- steps _ (raise _) => apply steps_raise, _
  | |- steps _ (lift _) => apply steps_lift, _
  | |- steps _ (ask _) => apply steps_ask, _
  | |- steps _ (match ?x with Some _ => _ | None => _ end) =>
      destruct x; steps_split
  | |- steps _ (match ?x with [] => _ | _ :: _ => _ end) =>
      destruct x; steps_split
  | |- _ => idtac
  end.

Lemma steps_store_write_grows c records :
  steps store_grows (store_write c records).
Proof.
  intros w c'. unfold store_write, collection. cbn.
  destruct (decide ((persist_directory c, collection_name c) =
                    (persist_directory c', collection_name c'))) as [E | E].
  - rewrite <- E, lookup_insert_eq. cbn. by apply prefix_app_r.
  - by rewrite lookup_insert_ne.
Qed.

Lemma steps_store_add_grows c records : steps store_grows (store_add c records).
Proof.
  unfold store_add. steps_split;
    first [apply steps_emit_grows | apply steps_store_write_grows].
Qed.

(** Running a script one step at a time. *)
Ltac run :=
  repeat (progress (unfold bind, try_except, lift;
                    rewrite ?http_get_log, ?print_log, ?emit_log, ?ret_run,
                      ?raise_run, ?ask_run, ?log_app;
                    cbn)).

(** ** The loader *)

Section LoaderFacts.

Variable requests_get : string -> gmap string string -> exn + Response.
Variable self : ObsidianDocumentLoader.

Lemma read_file_run path documents w :
  read_file requests_get self path documents w =
  (Return (documents ++ read_documents requests_get self path),
   log w (read_request self path :: read_lines requests_get self path)).
Proof.
  unfold read_file, read_documents, read_lines, read_result. run.
  destruct (requests_get _ _) as [e | r]; run; [by rewrite app_nil_r |].
  destruct (status_code r =? 200); run; [| by rewrite app_nil_r].
  destruct (json r) as [e | body]; run; [by rewrite app_nil_r |].
  destruct (py_getitem body "content") as [e | content]; run;
    [by rewrite app_nil_r |].
  destruct (new_document self path content) as [e | doc]; run;
    [by rewrite app_nil_r | done].
Qed.

Lemma read_result_document path doc :
  read_result requests_get self path = inr (Some doc) →
  ∃ content,
    fetched requests_get self path content ∧
    doc = make_document self path content.
Proof.
  unfold read_result, fetched.
  destruct (requests_get _ _) as [e | r]; [done |].
  destruct (Z.eqb_spec (status_code r) 200) as [Hs | Hs]; [| done].
  destruct (json r) as [e | body] eqn:Hj; [done |].
  destruct (py_getitem body "content") as [e | content] eqn:Hc; [done |].
  destruct content; cbn; try done.
  intros [= <-]. eexists. split; [by eexists _, _ | done].
Qed.

(** Whatever the vault answers, reading one file returns. *)
Lemma read_file_returns path documents w :
  ∃ documents' evs,
    read_file requests_get self path documents w =
    (Return documents', log w (read_request self path :: evs)) ∧
    (documents' = documents ∨
     ∃ content, fetched requests_get self path content ∧
                documents' = documents ++ [make_document self path content]) ∧
    Forall (λ ev, is_print ev = true) evs.
Proof.
  eexists _, _. split; [apply read_file_run |].
  unfold read_documents, read_lines.
  destruct (read_result requests_get self path) as [e | [doc |]] eqn:H.
  - split; [left; by rewrite app_nil_r | by repeat constructor].
  - destruct (read_result_document _ _ H) as (content & Hf & ->).
    split; [right; by exists content | by repeat constructor].
  - split; [left; by rewrite app_nil_r | constructor].
Qed.

Lemma load_file_selected file path documents folder_path w :
  py_getitem file "path" = inr (PStr path) →
  selected folder_path path = true →
  load_file requests_get self folder_path file documents w =
  read_file requests_get self path documents w.
Proof.
  intros Hp Hsel. unfold load_file, selected in *.
  unfold bind, lift. rewrite Hp. cbn. by rewrite Hsel.
Qed.

Lemma load_file_unselected file path documents folder_path w :
  py_getitem file "path" = inr (PStr path) →
  selected folder_path path = false →
  load_file requests_get self folder_path file documents w = (Return documents, w).
Proof.
  intros Hp Hsel. unfold load_file, selected in *.
  unfold bind, lift. rewrite Hp. cbn. by rewrite Hsel.
Qed.

Lemma for_files_app folder_path pre post documents w :
  for_files requests_get self folder_path (pre ++ post) documents w =
  match for_files requests_get self folder_path pre documents w with
  | (Return documents1, w1) =>
      for_files requests_get self folder_path post documents1 w1
  | (Raise e, w1) => (Raise e, w1)
  end.
Proof.
  revert documents w. induction pre as [| file pre IH]; intros documents w.
  - done.
  - cbn [app for_files]. unfold bind.
    destruct (load_file _ _ _ _ _ _) as [[documents1 | e] w1]; [apply IH | done].
Qed.

Lemma http_get_uniform url headers : uniform (http_get requests_get url headers).
Proof. unfold http_get. auto with uniform. Qed.

Lemma read_file_uniform path documents :
  uniform (read_file requests_get self path documents).
Proof.
  unfold read_file. apply uniform_try_except; [| auto with uniform].
  apply uniform_bind; [apply http_get_uniform |]. intros r.
  destruct (status_code r =? 200); auto 6 with uniform.
Qed.

Lemma load_file_uniform folder_path file documents :
  uniform (load_file requests_get self folder_path file documents).
Proof.
  unfold load_file. apply uniform_bind; [auto with uniform |].
  intros [| | | | path | |]; auto with uniform.
  destruct (_ && _); [apply read_file_uniform | auto with uniform].
Qed.

Lemma for_files_uniform folder_path files documents :
  uniform (for_files requests_get self folder_path files documents).
Proof.
  revert documents. induction files as [| file files IH]; intros documents; cbn.
  - auto with uniform.
  - apply uniform_bind; [apply load_file_uniform | done].
Qed.

Lemma load_from_path_uniform folder_path :
  uniform (load_from_path requests_get self folder_path).
Proof.
  unfold load_from_path. apply uniform_try_except; [| auto with uniform].
  apply uniform_bind; [apply http_get_uniform |]. intros r.
  destruct (negb _); [auto with uniform |].
  repeat (apply uniform_bind; [auto with uniform |]; intros ?).
  apply for_files_uniform.
Qed.

(** The loader never raises. *)
Lemma load_from_path_returns folder_path w :
  ∃ documents, fst (load_from_path requests_get self folder_path w) = Return documents.
Proof.
  unfold load_from_path, try_except.
  destruct (bind _ _ w) as [[documents | e] w1]; cbn; [by eexists |].
  unfold bind. rewrite print_log. cbn. by eexists.
Qed.

Lemma load_from_path_run folder_path w :
  load_from_path requests_get self folder_path w =
  (Return (loaded_documents requests_get self folder_path),
   log w (loader_events requests_get self folder_path)).
Proof.
  rewrite (uniform_run _ (load_from_path_uniform folder_path) w).
  unfold loaded_documents, loader_events.
  by destruct (load_from_path_returns folder_path empty_world) as [documents ->].
Qed.

Lemma read_file_steps folder_path path documents :
  selected folder_path path = true →
  steps (emits_only (loader_event self folder_path))
        (read_file requests_get self path documents).
Proof.
  intros Hsel w.
  destruct (read_file_returns path documents w) as (ds & evs & -> & _ & Hp).
  apply emits_only_log. constructor.
  - cbn. split; [done |]. right. by exists path.
  - eapply Forall_impl; [exact Hp |]. by intros [].
Qed.

Lemma load_file_steps folder_path file documents :
  steps (emits_only (loader_event self folder_path))
        (load_file requests_get self folder_path file documents).
Proof.
  unfold load_file. apply steps_bind; [apply _ | apply steps_lift, _ |].
  intros [| | | | path | |]; try (apply steps_raise, _).
  destruct (_ && _) eqn:Hsel; [by apply read_file_steps | apply steps_ret, _].
Qed.

Lemma for_files_steps folder_path files documents :
  steps (emits_only (loader_event self folder_path))
        (for_files requests_get self folder_path files documents).
Proof.
  revert documents. induction files as [| file files IH]; intros documents; cbn.
  - apply steps_ret, _.
  - apply steps_bind; [apply _ | apply load_file_steps | done].
Qed.

Lemma http_get_vault_steps folder_path :
  steps (emits_only (loader_event self folder_path))
        (http_get requests_get (vault_url self) (auth_headers self)).
Proof.
  unfold http_get. apply steps_bind; [apply _ | | intros; apply steps_lift, _].
  apply steps_emit. cbn. split; [done | by left].
Qed.

Lemma load_from_path_steps folder_path :
  steps (emits_only (loader_event self folder_path))
        (load_from_path requests_get self folder_path).
Proof.
  unfold load_from_path. apply steps_try_except; [apply _ | |].
  - apply steps_bind; [apply _ | apply http_get_vault_steps |]. intros r.
    destruct (negb _).
    + apply steps_bind; [apply _ | by apply steps_print | intros; apply steps_ret, _].
    + repeat (apply steps_bind; [apply _ | apply steps_lift, _ | intros ?]).
      apply for_files_steps.
  - intros e.
    apply steps_bind; [apply _ | by apply steps_print | intros; apply steps_ret, _].
Qed.

Lemma for_files_made_from folder_path all files documents w documents' w' :
  files ⊆ all →
  Forall (made_from requests_get self folder_path all) documents →
  for_files requests_get self folder_path files documents w = (Return documents', w') →
  Forall (made_from requests_get self folder_path all) documents'.
Proof.
  revert documents w. induction files as [| file files IH]; intros documents w Hsub Hall.
  - cbn. by intros [= <- _].
  - cbn [for_files]. unfold bind.
    destruct (load_file _ _ _ _ _ _) as [[documents1 | e] w1] eqn:Hfile; [| done].
    apply IH; [set_solver |].
    revert Hfile. unfold load_file, bind, lift.
    destruct (py_getitem file "path") as [e | [| | | | path | |]] eqn:Hp; try done.
    cbn. destruct (_ && _) eqn:Hsel; [| by intros [= <- _]].
    destruct (read_file_returns path documents w)
      as (ds & evs & -> & [-> | (content & Hf & ->)] & _); intros [= <- _]; [done |].
    apply Forall_app. split; [done |]. constructor; [| done].
    exists file, path, content. repeat split; try done. set_solver.
Qed.

Lemma load_file_outcome folder_path file documents w :
  is_Some (entry_path file) →
  load_file requests_get self folder_path file documents w =
  (Return (documents ++ entry_documents requests_get self folder_path file),
   log w (entry_events requests_get self folder_path file)).
Proof.
  intros [path Hpath]. unfold entry_documents, entry_events. rewrite Hpath.
  assert (Hp : py_getitem file "path" = inr (PStr path)).
  { unfold entry_path in Hpath.
    destruct (py_getitem file "path") as [| []]; by simplify_eq. }
  destruct (selected folder_path path) eqn:Hsel.
  - rewrite (load_file_selected _ _ _ _ _ Hp Hsel). apply read_file_run.
  - rewrite (load_file_unselected _ _ _ _ _ Hp Hsel).
    by rewrite log_nil, app_nil_r.
Qed.

Lemma for_files_outcome folder_path files documents w :
  Forall (λ file, is_Some (entry_path file)) files →
  for_files requests_get self folder_path files documents w =
  (Return (documents ++
           flat_map (entry_documents requests_get self folder_path) files),
   log w (flat_map (entry_events requests_get self folder_path) files)).
Proof.
  intros Hall. revert documents w.
  induction Hall as [| file files Hfile _ IH]; intros documents w.
  - cbn. by rewrite log_nil, app_nil_r.
  - cbn [for_files flat_map]. unfold bind.
    rewrite (load_file_outcome folder_path file documents w Hfile), IH.
    by rewrite log_app, <- app_assoc.
Qed.

(** An entry line 40 cannot handle ends the loop with its error. *)
Lemma load_file_entry_error folder_path file documents w e :
  entry_error file = Some e →
  load_file requests_get self folder_path file documents w = (Raise e, w).
Proof.
  unfold entry_error, load_file, bind, lift.
  destruct (py_getitem file "path") as [e' | v]; cbn.
  - by intros [= ->].
  - destruct v; intros [= <-]; done.
Qed.

(** The run of a load whose listing has a string path in every entry. *)
Lemma load_from_path_listing folder_path w r files items :
  requests_get (vault_url self) (auth_headers self) = inr r →
  status_code r = 200 →
  json r = inr files →
  py_iter files = inr items →
  Forall (λ file, is_Some (entry_path file)) items →
  load_from_path requests_get self folder_path w =
  (Return (flat_map (entry_documents requests_get self folder_path) items),
   log w (vault_request self ::
          flat_map (entry_events requests_get self folder_path) items)).
Proof.
  intros H Hs Hj Hi Hall. unfold load_from_path. run. rewrite H. run.
  rewrite Hs. run. rewrite Hj. run. rewrite Hi. run.
  rewrite (for_files_outcome folder_path items [] _ Hall). by run.
Qed.

End LoaderFacts.

(** ** Claims about the loader *)

(** C6: when the request for the vault's listing raises (the backend is
    unreachable) or is answered with a status other than 200,
    [load_from_path] returns the empty list, without raising, after one
    printed line that names the cause: the exception's text or the status. *)
Theorem load_from_path_fails_soft
    (requests_get : string → gmap string string → exn + Response)
    (self : ObsidianDocumentLoader) (folder_path : string) (w : World) :
  (∃ e, requests_get (vault_url self) (auth_headers self) = inl e) ∨
  (∃ r, requests_get (vault_url self) (auth_headers self) = inr r ∧
        status_code r ≠ 200) →
  load_from_path requests_get self folder_path w =
  (Return [],
   log w [vault_request self;
          EPrint match requests_get (vault_url self) (auth_headers self) with
                 | inl e => "❌ Error: " +:+ exn_str e
                 | inr r => "❌ Error connecting to Obsidian: " +:+
                            pretty (status_code r)
                 end]).
Proof.
  intros [[e H] | (r & H & Hs)]; unfold load_from_path; run; rewrite H; run.
  - done.
  - destruct (Z.eqb_spec (status_code r) 200); [done | by run].
Qed.

Lemma load_from_path_fails_soft_witness :
  ((∃ e, vault_down (vault_url demo_loader) (auth_headers demo_loader) = inl e) ∨
   (∃ r, vault_down (vault_url demo_loader) (auth_headers demo_loader) = inr r ∧
         status_code r ≠ 200)) ∧
  load_from_path vault_down demo_loader "Daily/2024-05-01" empty_world =
  (Return [],
   log empty_world [vault_request demo_loader;
                    EPrint "❌ Error: Connection refused"]).
Proof.
  assert (H : (∃ e, vault_down (vault_url demo_loader) (auth_headers demo_loader) = inl e) ∨
              (∃ r, vault_down (vault_url demo_loader) (auth_headers demo_loader) = inr r ∧
                    status_code r ≠ 200)).
  { left. eexists. reflexivity. }
  split; [exact H |].
  exact (load_from_path_fails_soft vault_down demo_loader "Daily/2024-05-01"
           empty_world H).
Defined.




(** C9: every document [load_from_path] returns for a folder prefix was
    made from a file the vault lists whose path starts with the prefix and
    ends with ".md"; its page content is the content fetched for that path
    and its metadata gives that path as source.  The only requests sent are
    the listing and the reading of such files, so a file failing either
    test is never read. *)
Theorem load_from_path_loads_selected_files
    (requests_get : string → gmap string string → exn + Response)
    (self : ObsidianDocumentLoader) (folder_path : string)
    (w w' : World) (documents : list Document) :
  load_from_path requests_get self folder_path w = (Return documents, w') →
  Forall (λ d, ∃ path content,
            listed requests_get self path ∧
            startswith path folder_path = true ∧
            endswith path ".md" = true ∧
            fetched requests_get self path content ∧
            page_content d = content ∧
            metadata d !! "source" = Some (PStr path)) documents ∧
  emits_only (loader_event self folder_path) w w'.
Proof.
  intros Hrun. split; last first.
  { pose proof (load_from_path_steps requests_get self folder_path w) as H.
    by rewrite Hrun in H. }
  revert Hrun. unfold load_from_path. run.
  destruct (requests_get _ _) as [e | r] eqn:H; run; [by intros [= <- _] |].
  destruct (Z.eqb_spec (status_code r) 200) as [Hs | Hs]; run;
    [| by intros [= <- _]].
  destruct (json r) as [e | files] eqn:Hj; run; [by intros [= <- _] |].
  destruct (py_iter files) as [e | items] eqn:Hi; run; [by intros [= <- _] |].
  destruct (for_files _ _ _ _ _ _) as [[documents1 | e] w1] eqn:Hloop; run;
    [| by intros [= <- _]].
  intros [= <- _].
  eapply for_files_made_from in Hloop; [| done | constructor].
  eapply Forall_impl; [exact Hloop |].
  intros d (file & path & content & Hin & Hp & Hsel & Hf & ->).
  apply andb_true_iff in Hsel as [Hstart Hend].
  exists path, content. repeat split; try done.
  by exists r, files, items, file.
Qed.

Lemma load_from_path_loads_selected_files_witness :
  load_from_path (demo_vault "alpha") demo_loader "Daily/" empty_world =
  (Return [make_document demo_loader "Daily/2024-05-01/a.md" (PStr "alpha");
           make_document demo_loader "Daily/2024-05-01/c.md" (PStr "gamma")],
   snd (load_from_path (demo_vault "alpha") demo_loader "Daily/" empty_world)) ∧
  Forall (λ d, ∃ path content,
            listed (demo_vault "alpha") demo_loader path ∧
            startswith path "Daily/" = true ∧
            endswith path ".md" = true ∧
            fetched (demo_vault "alpha") demo_loader path content ∧
            page_content d = content ∧
            metadata d !! "source" = Some (PStr path))
    [make_document demo_loader "Daily/2024-05-01/a.md" (PStr "alpha");
     make_document demo_loader "Daily/2024-05-01/c.md" (PStr "gamma")].
Proof.
  assert (H : load_from_path (demo_vault "alpha") demo_loader "Daily/" empty_world =
    (Return [make_document demo_loader "Daily/2024-05-01/a.md" (PStr "alpha");
             make_document demo_loader "Daily/2024-05-01/c.md" (PStr "gamma")],
     snd (load_from_path (demo_vault "alpha") demo_loader "Daily/" empty_world))).
  { vm_compute. reflexivity. }
  split; [exact H |].
  exact (proj1 (load_from_path_loads_selected_files _ _ _ _ _ _ H)).
Defined.

(** ** The ingestion scripts *)

Lemma trace_log w evs : trace (log w evs) = trace w ++ evs.
Proof. reflexivity. Qed.

Lemma chroma_refuses_log w evs : chroma_refuses (log w evs) = chroma_refuses w.
Proof. reflexivity. Qed.

Lemma chroma_rejects_log w evs : chroma_rejects (log w evs) = chroma_rejects w.
Proof. reflexivity. Qed.

Lemma new_chroma_run dir emb name w :
  new_chroma dir emb name w =
  (match chroma_refuses w {| persist_directory := dir; embedding_function := emb;
                             collection_name := name |} with
   | Some e => Raise e
   | None => Return {| persist_directory := dir; embedding_function := emb;
                       collection_name := name |}
   end,
   log w [ENewChroma {| persist_directory := dir; embedding_function := emb;
                        collection_name := name |}]).
Proof.
  unfold new_chroma. run. rewrite chroma_refuses_log.
  by destruct (chroma_refuses w _).
Qed.

(** Adding at least one record the store does not reject. *)
Lemma store_add_run c records w :
  records ≠ [] →
  chroma_rejects w c records = None →
  ∃ w',
    store_add c records w = (Return tt, w') ∧
    trace w' = trace w ++ [EStoreAdd c records] ∧
    collection w' c = collection w c ++ map stored records.
Proof.
  intros Hne Hok. unfold store_add. run.
  destruct records as [| r records]; [done |]. run.
  rewrite chroma_rejects_log, Hok. cbn.
  eexists. split; [reflexivity |]. split; [done |].
  unfold store_write, collection. cbn. by rewrite lookup_insert_eq.
Qed.

Section PipelineFacts.

Variable requests_get : string -> gmap string string -> exn + Response.
Variable split_documents :
  RecursiveCharacterTextSplitter -> list Document -> exn + list Document.
Variable embed : OllamaEmbeddings -> pyval -> exn + list Q.
Variable today_date : string.

Lemma loader_events_spec self folder_path :
  Forall (loader_event self folder_path)
         (loader_events requests_get self folder_path).
Proof.
  destruct (load_from_path_steps requests_get self folder_path empty_world)
    as (evs & H & HP).
  unfold loader_events. by rewrite H.
Qed.

Lemma loader_event_quiet self folder_path ev :
  loader_event self folder_path ev → quiet ev.
Proof. by destruct ev. Qed.

Lemma loader_event_built_from self folder_path env ev :
  loader_event self folder_path ev → built_from env ev.
Proof. by destruct ev. Qed.

Lemma split_run splitter documents w :
  split split_documents splitter documents w =
  (match split_documents splitter documents with
   | inl e => Raise e
   | inr chunks => Return chunks
   end, log w [ESplit splitter documents]).
Proof.
  unfold split, bind. rewrite emit_log.
  by destruct (split_documents splitter documents).
Qed.

Lemma embed_all_chunks emb chunks records :
  embed_all embed emb chunks = inr records → map chunk records = chunks.
Proof.
  revert records. induction chunks as [| c chunks IH]; intros records; cbn.
  - by intros [= <-].
  - destruct (embed _ _); [done |].
    destruct (embed_all _ _ _) as [| rs]; [done |].
    intros [= <-]. cbn. f_equal. by apply IH.
Qed.

Lemma add_documents_run c chunks records w :
  embed_all embed (embedding_function c) chunks = inr records →
  chunks ≠ [] →
  chroma_rejects w c records = None →
  ∃ w', add_documents embed c chunks w = (Return tt, w') ∧
        trace w' = trace w ++ [EEmbedDocuments (embedding_function c) chunks;
                               EStoreAdd c records] ∧
        collection w' c = collection w c ++ map stored records.
Proof.
  intros H Hne Hok. unfold add_documents. run. rewrite H. run.
  assert (Hrec : records ≠ []).
  { intros ->. apply embed_all_chunks in H. by subst. }
  destruct (store_add_run c records
              (log w [EEmbedDocuments (embedding_function c) chunks]) Hrec Hok)
    as (w' & -> & Htr & Hcoll).
  eexists. split; [reflexivity |]. split; [| done].
  by rewrite Htr, trace_log, <- app_assoc.
Qed.

Lemma load_from_path_grows self folder_path :
  steps store_grows (load_from_path requests_get self folder_path).
Proof. intros w c. by rewrite load_from_path_run. Qed.

Lemma add_documents_grows c chunks :
  steps store_grows (add_documents embed c chunks).
Proof.
  unfold add_documents.
  apply steps_bind; [apply _ | apply steps_emit_grows | intros _].
  apply steps_bind; [apply _ | apply steps_lift, _ | intros records].
  apply steps_store_add_grows.
Qed.

(** No run of the daily update takes a record out of any collection,
    whether it ends well or raises. *)
Lemma add_new_documents_to_memory_grows env :
  steps store_grows
        (add_new_documents_to_memory requests_get split_documents embed
           today_date env).
Proof.
  unfold add_new_documents_to_memory, print, split, new_embeddings, new_chroma.
  apply steps_bind; [apply _ | apply steps_emit_grows | intros _].
  apply steps_bind; [apply _ | apply load_from_path_grows | intros documents].
  destruct documents as [| d documents]; steps_split;
    first [apply steps_emit_grows | apply add_documents_grows].
Qed.

End PipelineFacts.

(** ** Claims about the ingestion scripts *)

(** C2: when the loader returns no document, the full-vault setup returns
    [None] and the daily update returns, neither raising; all either run
    adds to the world is a trace of requests and printed lines that holds no
    event of the embedding provider (built or called) and none of the vector
    store, the last line saying that nothing was found; the store itself is
    the one the run started with. *)
Theorem no_documents_is_a_noop
    (requests_get : string → gmap string string → exn + Response)
    (split_documents :
       RecursiveCharacterTextSplitter → list Document → exn + list Document)
    (embed : OllamaEmbeddings → pyval → exn + list Q)
    (today_date : string) (env : gmap string string) (w : World) :
  (loaded_documents requests_get (__init__ env) "" = [] →
   ∃ evs,
     setup_vector_database requests_get split_documents embed env w =
     (Return None, log w (evs ++ [EPrint "❌ No documents found!"])) ∧
     Forall quiet evs) ∧
  (loaded_documents requests_get (__init__ env) ("Daily/" +:+ today_date) = [] →
   ∃ evs,
     add_new_documents_to_memory requests_get split_documents embed today_date env w =
     (Return tt, log w (evs ++ [EPrint "⚠️ No new documents found for today"])) ∧
     Forall quiet evs).
Proof.
  split; intros Hnone.
  - unfold setup_vector_database, load_all_vault. run.
    rewrite load_from_path_run, Hnone. run.
    eexists (_ :: _ :: _). split; [reflexivity |].
    repeat (apply Forall_cons; split; [done |]).
    eapply Forall_impl; [apply loader_events_spec |].
    apply loader_event_quiet.
  - unfold add_new_documents_to_memory. run.
    rewrite load_from_path_run, Hnone. run.
    eexists (_ :: _). split; [reflexivity |].
    repeat (apply Forall_cons; split; [done |]).
    eapply Forall_impl; [apply loader_events_spec |].
    apply loader_event_quiet.
Qed.

Lemma no_documents_is_a_noop_witness :
  loaded_documents vault_down (__init__ demo_env) "" = [] ∧
  loaded_documents vault_down (__init__ demo_env) ("Daily/" +:+ "2024-05-01") = [] ∧
  (∃ evs,
     setup_vector_database vault_down demo_split demo_embed demo_env empty_world =
     (Return None, log empty_world (evs ++ [EPrint "❌ No documents found!"])) ∧
     Forall quiet evs) ∧
  (∃ evs,
     add_new_documents_to_memory vault_down demo_split demo_embed "2024-05-01"
       demo_env empty_world =
     (Return tt, log empty_world (evs ++ [EPrint "⚠️ No new documents found for today"])) ∧
     Forall quiet evs).
Proof.
  assert (H1 : loaded_documents vault_down (__init__ demo_env) "" = []).
  { vm_compute. reflexivity. }
  assert (H2 : loaded_documents vault_down (__init__ demo_env)
                 ("Daily/" +:+ "2024-05-01") = []).
  { vm_compute. reflexivity. }
  split; [exact H1 |]. split; [exact H2 |].
  split.
  - exact (proj1 (no_documents_is_a_noop vault_down demo_split demo_embed
                    "2024-05-01" demo_env empty_world) H1).
  - exact (proj2 (no_documents_is_a_noop vault_down demo_split demo_embed
                    "2024-05-01" demo_env empty_world) H2).
Defined.

Example first_ingestion_collection :
  collection first_ingestion (store_of demo_env) =
  [demo_record "Daily/2024-05-01/a.md" "first draft";
   demo_record "Daily/2024-05-01/c.md" "gamma"].
Proof. vm_compute. reflexivity. Qed.

Example second_ingestion_collection :
  collection second_ingestion (store_of demo_env) =
  [demo_record "Daily/2024-05-01/a.md" "first draft";
   demo_record "Daily/2024-05-01/c.md" "gamma";
   demo_record "Daily/2024-05-01/a.md" "second draft";
   demo_record "Daily/2024-05-01/c.md" "gamma"].
Proof. vm_compute. reflexivity. Qed.

(** C1, as stated, fails: the note a.md is ingested as "first draft" and,
    its text changed to "second draft", ingested again; the record of the
    first version is still in the collection next to the record of the
    second. *)
Lemma reingestion_keeps_stale_records :
  ¬ stale_records_removed "Daily/2024-05-01/a.md"
      (collection first_ingestion (store_of demo_env))
      (collection second_ingestion (store_of demo_env)).
Proof.
  intros H.
  apply (H (demo_record "Daily/2024-05-01/a.md" "first draft")).
  - rewrite first_ingestion_collection. apply list_elem_of_here.
  - vm_compute. reflexivity.
  - rewrite second_ingestion_collection. apply list_elem_of_here.
Qed.

(** C1, amended: a daily update that loads documents, splits them into
    at least one chunk and embeds the chunks, with a store that opens and
    does not reject the records, returns, and the collection it wrote to
    then holds every record it held before, in the same order, followed by
    one new record per chunk, each in the form the store keeps it; nothing
    is taken out, whatever the source of the stored records. *)
Theorem reingestion_appends
    (requests_get : string → gmap string string → exn + Response)
    (split_documents :
       RecursiveCharacterTextSplitter → list Document → exn + list Document)
    (embed : OllamaEmbeddings → pyval → exn + list Q)
    (today_date : string) (env : gmap string string) (w : World)
    (chunks : list Document) (records : list VectorRecord) :
  loaded_documents requests_get (__init__ env) ("Daily/" +:+ today_date) ≠ [] →
  split_documents daily_splitter
    (loaded_documents requests_get (__init__ env) ("Daily/" +:+ today_date)) =
    inr chunks →
  chunks ≠ [] →
  embed_all embed (embedding_function (store_of env)) chunks = inr records →
  chroma_refuses w (store_of env) = None →
  chroma_rejects w (store_of env) records = None →
  ∃ w',
    add_new_documents_to_memory requests_get split_documents embed today_date env w =
    (Return tt, w') ∧
    collection w' (store_of env) =
      collection w (store_of env) ++ map stored records ∧
    map chunk (map stored records) = map stored_chunk chunks.
Proof.
  intros Hdocs Hsplit Hchunks Hembed Hopen Hadd.
  unfold add_new_documents_to_memory. run. rewrite load_from_path_run.
  destruct (loaded_documents _ _ _) as [| d documents] eqn:Hload; [done |].
  run. rewrite split_run. fold daily_splitter. rewrite Hsplit.
  unfold new_embeddings. run. rewrite new_chroma_run. fold (store_of env).
  rewrite chroma_refuses_log, Hopen. run.
  match goal with
  | |- context [add_documents embed (store_of env) chunks ?w0] =>
      destruct (add_documents_run embed (store_of env) chunks records w0
                  Hembed Hchunks Hadd)
        as (w1 & -> & _ & Hcoll)
  end.
  run. eexists. split; [reflexivity |]. split.
  - by rewrite collection_log, Hcoll, collection_log.
  - rewrite <- (embed_all_chunks embed _ _ _ Hembed), !map_map. done.
Qed.

Lemma reingestion_appends_witness :
  ∃ w',
    add_new_documents_to_memory (demo_vault "second draft") demo_split demo_embed
      "2024-05-01" demo_env first_ingestion = (Return tt, w') ∧
    collection w' (store_of demo_env) =
      collection first_ingestion (store_of demo_env) ++
      map stored [demo_record "Daily/2024-05-01/a.md" "second draft";
                  demo_record "Daily/2024-05-01/c.md" "gamma"] ∧
    map chunk (map stored [demo_record "Daily/2024-05-01/a.md" "second draft";
                           demo_record "Daily/2024-05-01/c.md" "gamma"]) =
      map stored_chunk
        [make_document demo_loader "Daily/2024-05-01/a.md" (PStr "second draft");
         make_document demo_loader "Daily/2024-05-01/c.md" (PStr "gamma")].
Proof.
  apply (reingestion_appends (demo_vault "second draft") demo_split demo_embed
           "2024-05-01" demo_env first_ingestion).
  - vm_compute. discriminate.
  - vm_compute. reflexivity.
  - discriminate.
  - vm_compute. reflexivity.
  - reflexivity.
  - reflexivity.
Defined.

(** C8, as stated, fails for the vault connection settings: with none of
    them in the environment the loader is built with all three missing, and
    goes on to send its request to the address "None/vault" with the key
    "None". *)
Lemma vault_settings_have_no_default :
  api_url (__init__ ∅) = None ∧
  api_key (__init__ ∅) = None ∧
  vault_name (__init__ ∅) = None ∧
  vault_request (__init__ ∅) =
    EHttpGet "None/vault" {[ "Authorization" := "Bearer None" ]}.
Proof. repeat split. Qed.

Section SettingsFacts.

Variable requests_get : string -> gmap string string -> exn + Response.
Variable split_documents :
  RecursiveCharacterTextSplitter -> list Document -> exn + list Document.
Variable embed : OllamaEmbeddings -> pyval -> exn + list Q.
Variable today_date : string.
Variable env : gmap string string.

Lemma load_from_path_built_from self folder_path :
  steps (emits_only (built_from env))
        (load_from_path requests_get self folder_path).
Proof.
  intros w. eapply emits_only_weaken; [| apply load_from_path_steps].
  apply loader_event_built_from.
Qed.

Lemma store_write_emits (P : event → Prop) c records :
  steps (emits_only P) (store_write c records).
Proof. intros w. exists []. split; [by rewrite app_nil_r | constructor]. Qed.

Lemma store_add_emits (P : event → Prop) c records :
  P (EStoreAdd c records) → steps (emits_only P) (store_add c records).
Proof.
  intros HP. unfold store_add.
  steps_split; first [by apply steps_emit | apply store_write_emits].
Qed.

Lemma add_documents_built_from c chunks :
  steps (emits_only (built_from env)) (add_documents embed c chunks).
Proof.
  unfold add_documents. steps_split; [by apply steps_emit | by apply store_add_emits].
Qed.

Lemma setup_vector_database_built_from :
  steps (emits_only (built_from env))
        (setup_vector_database requests_get split_documents embed env).
Proof.
  unfold setup_vector_database, load_all_vault, from_documents, split,
    new_embeddings, new_chroma.
  apply steps_bind; [apply _ | by apply steps_print | intros _].
  apply steps_bind; [apply _ | by apply steps_print | intros _].
  apply steps_bind; [apply _ | apply load_from_path_built_from | intros documents].
  destruct documents as [| d documents]; steps_split;
    first [by apply steps_print | by apply steps_emit
          | apply add_documents_built_from].
Qed.

Lemma add_new_documents_to_memory_built_from :
  steps (emits_only (built_from env))
        (add_new_documents_to_memory requests_get split_documents embed
           today_date env).
Proof.
  unfold add_new_documents_to_memory, split, new_embeddings, new_chroma.
  apply steps_bind; [apply _ | by apply steps_print | intros _].
  apply steps_bind; [apply _ | apply load_from_path_built_from | intros documents].
  destruct documents as [| d documents]; steps_split;
    first [by apply steps_print | by apply steps_emit
          | apply add_documents_built_from].
Qed.

End SettingsFacts.

(** The query script's initialisation: it ends at [Chroma(...)] when the
    store cannot be opened, and builds all three objects otherwise. *)
Lemma initialize_rag_system_run env w :
  initialize_rag_system env w =
  match chroma_refuses w (store_of env) with
  | Some e =>
      (Raise e,
       log w [EPrint ("🔄 Initializing RAG system..." +:+ nl);
              ENewEmbeddings (embedding_function (store_of env));
              ENewChroma (store_of env)])
  | None =>
      (Return (chat_of env, retriever_of env),
       log w [EPrint ("🔄 Initializing RAG system..." +:+ nl);
              ENewEmbeddings (embedding_function (store_of env));
              ENewChroma (store_of env);
              ENewChat (chat_of env);
              EPrint ("✅ RAG system initialized!" +:+ nl)])
  end.
Proof.
  unfold initialize_rag_system, new_embeddings, new_chat. run.
  rewrite new_chroma_run. fold (store_of env). rewrite chroma_refuses_log.
  destruct (chroma_refuses w (store_of env)); by run.
Qed.

(** C8, amended: the embedding model, the generation model, the backend
    endpoint, the vector-store location and the collection name are each
    taken from the environment when set and are the default otherwise
    (nomic-embed-text, llama3.1:8b, http://localhost:11434, ./chroma_data,
    project-memory), in whatever provider or store the setup, the daily
    update and the initialisation of the query script get to build; the
    three vault connection settings have no default and are missing in the
    loader when the environment lacks them. *)
Theorem settings_fall_back_to_defaults
    (requests_get : string → gmap string string → exn + Response)
    (split_documents :
       RecursiveCharacterTextSplitter → list Document → exn + list Document)
    (embed : OllamaEmbeddings → pyval → exn + list Q)
    (today_date : string) (env : gmap string string) (w : World) :
  emits_only (built_from env) w
    (snd (setup_vector_database requests_get split_documents embed env w)) ∧
  emits_only (built_from env) w
    (snd (add_new_documents_to_memory requests_get split_documents embed
            today_date env w)) ∧
  emits_only (built_from env) w (snd (initialize_rag_system env w)) ∧
  api_url (__init__ env) = env !! "OBSIDIAN_API_URL" ∧
  api_key (__init__ env) = env !! "OBSIDIAN_API_KEY" ∧
  vault_name (__init__ env) = env !! "OBSIDIAN_VAULT_NAME".
Proof.
  split; [apply setup_vector_database_built_from |].
  split; [apply add_new_documents_to_memory_built_from |].
  split; [| done].
  rewrite initialize_rag_system_run.
  destruct (chroma_refuses w (store_of env)); apply emits_only_log;
    by repeat constructor.
Qed.

(** With nothing set, the query script builds everything from the defaults. *)
Example initialize_rag_system_defaults :
  fst (initialize_rag_system ∅ empty_world) =
  Return
    ({| llm_model := "llama3.1:8b";
        llm_base_url := "http://localhost:11434";
        temperature := (1 # 10)%Q |},
     {| vectorstore :=
          {| persist_directory := "./chroma_data";
             embedding_function :=
               {| emb_model := "nomic-embed-text";
                  emb_base_url := "http://localhost:11434" |};
             collection_name := "project-memory" |};
        search_type := "similarity";
        search_kwargs := {[ "k" := 5 ]} |}).
Proof. reflexivity. Qed.

(** ** Python text, continued *)

Lemma lstrip_all_space s : all_space s = true → lstrip s = "".
Proof.
  induction s as [| c s IH]; [done |]. cbn.
  intros [Hc Hs]%andb_true_iff. rewrite Hc. by apply IH.
Qed.

Lemma strip_all_space s : all_space s = true → strip s = "".
Proof. intros H. unfold strip. by rewrite lstrip_all_space. Qed.

Lemma lstrip_head s :
  lstrip s = "" ∨ ∃ c s', lstrip s = String c s' ∧ isspace c = false.
Proof.
  induction s as [| c s IH]; [by left |]. cbn.
  destruct (isspace c) eqn:Hc; [done |]. right. by exists c, s.
Qed.

Lemma rstrip_head c s :
  isspace c = false → ∃ s', rstrip (String c s) = String c s'.
Proof. intros Hc. cbn. rewrite Hc. destruct (rstrip s); by eexists. Qed.

Lemma rstrip_rstrip s : rstrip (rstrip s) = rstrip s.
Proof.
  induction s as [| c s IH]; [done |]. cbn.
  destruct (rstrip s) as [| c' r] eqn:Hr.
  - destruct (isspace c) eqn:Hc; [done |]. cbn. by rewrite Hc.
  - change (rstrip (String c (String c' r)))
      with (match rstrip (String c' r) with
            | EmptyString => if isspace c then EmptyString else String c EmptyString
            | String a r0 => String c (String a r0)
            end).
    by rewrite IH.
Qed.

Lemma strip_strip s : strip (strip s) = strip s.
Proof.
  unfold strip. destruct (lstrip_head s) as [-> | (c & s' & -> & Hc)]; [done |].
  destruct (rstrip_head c s' Hc) as [r Hr]. rewrite Hr.
  cbn [lstrip]. rewrite Hc, <- Hr. apply rstrip_rstrip.
Qed.

(** ** The query script *)

Section QueryFacts.

Variable similarity_search :
  Chroma -> list VectorRecord -> string -> Z -> exn + list Document.
Variable repr_document : Document -> string.
Variable chat : ChatOllama -> string -> exn + string.

Lemma retriever_invoke_run r question w :
  retriever_invoke similarity_search r question w =
  (match similarity_search (vectorstore r) (collection w (vectorstore r)) question
           (default 4 (search_kwargs r !! "k")) with
   | inl e => Raise e
   | inr results => Return results
   end,
   log w [ERetrieve (vectorstore r) (default 4 (search_kwargs r !! "k")) question]).
Proof.
  unfold retriever_invoke, bind. rewrite emit_log.
  by destruct (similarity_search _ _ _ _).
Qed.

(** A failed search fails the chain before the model is asked. *)
Lemma chain_invoke_search_raises ch question w e :
  similarity_search (vectorstore (chain_retriever ch))
    (collection w (vectorstore (chain_retriever ch))) question
    (default 4 (search_kwargs (chain_retriever ch) !! "k")) = inl e →
  chain_invoke similarity_search repr_document chat ch question w =
  (Raise e,
   log w [ERetrieve (vectorstore (chain_retriever ch))
            (default 4 (search_kwargs (chain_retriever ch) !! "k")) question]).
Proof.
  intros H. unfold chain_invoke, bind. by rewrite retriever_invoke_run, H.
Qed.

(** A failed answer of the model fails the chain. *)
Lemma chain_invoke_chat_raises ch question w results prompt e :
  similarity_search (vectorstore (chain_retriever ch))
    (collection w (vectorstore (chain_retriever ch))) question
    (default 4 (search_kwargs (chain_retriever ch) !! "k")) = inr results →
  assemble repr_document (chain_prompt ch) results question = inr prompt →
  chat (chain_llm ch) prompt = inl e →
  chain_invoke similarity_search repr_document chat ch question w =
  (Raise e,
   log w [ERetrieve (vectorstore (chain_retriever ch))
            (default 4 (search_kwargs (chain_retriever ch) !! "k")) question;
          EGenerate (chain_llm ch) prompt]).
Proof.
  intros Hs Ha Hc. unfold chain_invoke, llm_invoke, bind.
  rewrite retriever_invoke_run, Hs, Ha. cbn. rewrite emit_log, Hc.
  by rewrite log_app.
Qed.

(** One call of the chain is one search, followed by at most one call of
    the model, and nothing else. *)
Lemma chain_invoke_trace ch question w :
  ∃ r evs,
    chain_invoke similarity_search repr_document chat ch question w =
    (r, log w (ERetrieve (vectorstore (chain_retriever ch))
                 (default 4 (search_kwargs (chain_retriever ch) !! "k"))
                 question :: evs)) ∧
    (evs = [] ∨ ∃ prompt, evs = [EGenerate (chain_llm ch) prompt]).
Proof.
  unfold chain_invoke, llm_invoke, bind. rewrite retriever_invoke_run.
  destruct (similarity_search _ _ _ _) as [e | results].
  { eexists _, []. split; [done | by left]. }
  destruct (assemble _ _ _ _) as [e | prompt]; cbn.
  { eexists _, []. split; [done | by left]. }
  rewrite emit_log, log_app. cbn.
  destruct (chat _ _); eexists _, [_]; (split; [done | right; by eexists]).
Qed.

(** The [try] of the loop always comes back to the loop. *)
Lemma try_block_trace ch question w :
  ∃ evs,
    try_except
      (response <~ chain_invoke similarity_search repr_document chat ch question ;;
       print ("Assistant: " +:+ response +:+ nl))
      (fun e => print ("❌ Error: " +:+ exn_str e +:+ nl)) w =
    (Return tt, log w evs) ∧
    omap retrieval evs =
      [(vectorstore (chain_retriever ch),
        default 4 (search_kwargs (chain_retriever ch) !! "k"), question)] ∧
    (length (filter (λ ev, is_generate ev = true) evs) ≤ 1)%nat.
Proof.
  unfold try_except, bind.
  destruct (chain_invoke_trace ch question w) as (r & evs & -> & Hevs).
  destruct r as [response | e]; rewrite print_log, log_app;
    (eexists; split; [reflexivity |]);
    destruct Hevs as [-> | (prompt & ->)]; (split; [done |]);
    vm_compute; lia.
Qed.

Lemma query_loop_trace ch lines w :
  ∃ evs,
    snd (query_loop similarity_search repr_document chat ch lines w) = log w evs ∧
    omap retrieval evs =
      map (λ question,
             (vectorstore (chain_retriever ch),
              default 4 (search_kwargs (chain_retriever ch) !! "k"), question))
          (asked lines) ∧
    (length (filter (λ ev, is_generate ev = true) evs) ≤ length (asked lines))%nat ∧
    head evs = Some (EInput "You: ").
Proof.
  revert w. induction lines as [| line lines IH]; intros w.
  - cbn. unfold bind. rewrite emit_log. cbn. eexists. split; [done |]. done.
  - cbn [query_loop asked]. unfold is_quit.
    destruct (decide (lower (strip line) = "quit")) as [Hq | Hq].
    { rewrite (bool_decide_eq_true_2 _ Hq).
      unfold bind. rewrite emit_log, print_log, log_app. cbn.
      eexists. split; [done |]. done. }
    rewrite (bool_decide_eq_false_2 _ Hq).
    destruct (decide (strip line = "")) as [Hb | Hb].
    { unfold bind. rewrite emit_log.
      destruct (IH (log w [EInput "You: "])) as (evs & -> & Hr & Hg & _).
      rewrite log_app. eexists. split; [done |]. done. }
    unfold bind at 1. rewrite emit_log.
    unfold bind at 1. rewrite print_log, log_app.
    unfold bind at 1.
    match goal with
    | |- context [try_except _ _ ?w0] =>
        destruct (try_block_trace ch (strip line) w0) as (evs1 & -> & Hr1 & Hg1)
    end.
    rewrite log_app.
    match goal with
    | |- context [query_loop _ _ _ _ lines ?w0] =>
        destruct (IH w0) as (evs2 & -> & Hr2 & Hg2 & _)
    end.
    rewrite log_app. eexists. split; [done |]. split; [| split; [| done]].
    + by rewrite !omap_app, Hr1, Hr2.
    + rewrite !filter_app, !length_app.
      change (length (filter (λ ev, is_generate ev = true) [EInput "You: "]))
        with 0%nat.
      change (length (filter (λ ev, is_generate ev = true)
                        [EPrint (nl +:+ "🤔 Searching memory and thinking..." +:+ nl)]))
        with 0%nat.
      cbn [length]. lia.
Qed.

Lemma query_loop_outcome ch lines w :
  fst (query_loop similarity_search repr_document chat ch lines w) =
  if existsb is_quit lines then Return tt else Raise eof_error.
Proof.
  revert w. induction lines as [| line lines IH]; intros w.
  - cbn. unfold bind. by rewrite emit_log.
  - cbn [query_loop existsb]. unfold is_quit at 1.
    destruct (decide (lower (strip line) = "quit")) as [Hq | Hq].
    { rewrite (bool_decide_eq_true_2 _ Hq).
      unfold bind. by rewrite emit_log, print_log. }
    rewrite (bool_decide_eq_false_2 _ Hq). cbn [orb].
    destruct (decide (strip line = "")) as [Hb | Hb].
    { unfold bind. rewrite emit_log. apply IH. }
    unfold bind at 1. rewrite emit_log.
    unfold bind at 1. rewrite print_log.
    unfold bind at 1.
    match goal with
    | |- context [try_except _ _ ?w0] =>
        destruct (try_block_trace ch (strip line) w0) as (evs1 & -> & _)
    end.
    apply IH.
Qed.

End QueryFacts.

(** ** Claims about the query script *)

(** C3, as stated, fails: with no result the context block is the text of
    the empty list, and neither it nor the prompt built around it says that
    no relevant context was found. *)
Lemma empty_results_leave_no_marker :
  ¬ marks_no_context (context_block demo_repr []) ∧
  ∃ prompt,
    assemble demo_repr template [] "What did I do last week?" = inr prompt ∧
    ¬ marks_no_context prompt.
Proof.
  split; [by vm_compute |].
  eexists. split; [vm_compute; reflexivity | by vm_compute].
Qed.

(** C3, amended: with no result the context block is the two characters
    "[]", which Python prints for the empty list; it is not the empty
    string, and the prompt is the template with "[]" in the place of the
    context and the question in the place of the question. *)
Theorem empty_results_context_block
    (repr_document : Document → string) (question : string) :
  context_block repr_document [] = "[]" ∧
  context_block repr_document [] ≠ "" ∧
  assemble repr_document template [] question =
  inr ("You are a technical assistant with access to project memory." +:+ nl +:+
       "Based on the following context from previous work sessions, answer the question." +:+ nl +:+
       nl +:+
       "Context:" +:+ nl +:+
       "[]" +:+ nl +:+
       nl +:+
       "Question: " +:+ question +:+ nl +:+
       nl +:+
       "Answer with specific details, commands, configurations, and recommendations when relevant:").
Proof.
  split; [reflexivity |]. split; [discriminate |].
  unfold assemble, format. vm_compute. reflexivity.
Qed.

(** C4: when the chain raises [e] on a line that is a question (neither
    blank nor the exit command), the run of the loop from that line holds,
    in this order: its prompt, the line that announces the search, the
    search, the call of the model when it was the model that failed, one
    printed line that shows [e], and the next prompt.  The error does not
    end the run: the run ends as the loop on the remaining lines ends,
    returning at an exit command or raising [EOFError] when the lines run
    out, and from the error line on it is that loop. *)
Theorem query_loop_survives_errors
    (similarity_search :
       Chroma → list VectorRecord → string → Z → exn + list Document)
    (repr_document : Document → string)
    (chat : ChatOllama → string → exn + string)
    (chain : Chain) (line : string) (lines : list string)
    (w : World) (e : exn) :
  strip line ≠ "" →
  lower (strip line) ≠ "quit" →
  fst (chain_invoke similarity_search repr_document chat chain (strip line)
         (log w [EInput "You: ";
                 EPrint (nl +:+ "🤔 Searching memory and thinking..." +:+ nl)])) =
    Raise e →
  ∃ model rest,
    (model = [] ∨ ∃ prompt, model = [EGenerate (chain_llm chain) prompt]) ∧
    snd (query_loop similarity_search repr_document chat chain (line :: lines) w) =
      log w ([EInput "You: ";
              EPrint (nl +:+ "🤔 Searching memory and thinking..." +:+ nl);
              ERetrieve (vectorstore (chain_retriever chain))
                (default 4 (search_kwargs (chain_retriever chain) !! "k"))
                (strip line)] ++
             model ++
             [EPrint ("❌ Error: " +:+ exn_str e +:+ nl); EInput "You: "] ++
             rest) ∧
    fst (query_loop similarity_search repr_document chat chain (line :: lines) w) =
      (if existsb is_quit lines then Return tt else Raise eof_error) ∧
    query_loop similarity_search repr_document chat chain (line :: lines) w =
      query_loop similarity_search repr_document chat chain lines
        (log w ([EInput "You: ";
                 EPrint (nl +:+ "🤔 Searching memory and thinking..." +:+ nl);
                 ERetrieve (vectorstore (chain_retriever chain))
                   (default 4 (search_kwargs (chain_retriever chain) !! "k"))
                   (strip line)] ++
                model ++
                [EPrint ("❌ Error: " +:+ exn_str e +:+ nl)])).
Proof.
  intros Hne Hquit Hraise.
  destruct (chain_invoke_trace similarity_search repr_document chat chain
              (strip line)
              (log w [EInput "You: ";
                      EPrint (nl +:+ "🤔 Searching memory and thinking..." +:+ nl)]))
    as (r & model & Hrun & Hmodel).
  rewrite Hrun in Hraise. cbn in Hraise. subst r.
  assert (Hstep :
    query_loop similarity_search repr_document chat chain (line :: lines) w =
    query_loop similarity_search repr_document chat chain lines
      (log w ([EInput "You: ";
               EPrint (nl +:+ "🤔 Searching memory and thinking..." +:+ nl);
               ERetrieve (vectorstore (chain_retriever chain))
                 (default 4 (search_kwargs (chain_retriever chain) !! "k"))
                 (strip line)] ++
              model ++
              [EPrint ("❌ Error: " +:+ exn_str e +:+ nl)]))).
  { cbn [query_loop].
    destruct (decide (lower (strip line) = "quit")) as [| _]; [done |].
    destruct (decide (strip line = "")) as [| _]; [done |].
    unfold bind at 1. rewrite emit_log.
    unfold bind at 1. rewrite print_log, log_app. cbn [app].
    unfold bind at 1, try_except. unfold bind at 1. rewrite Hrun.
    by rewrite print_log, !log_app. }
  destruct (query_loop_trace similarity_search repr_document chat chain lines
              (log w ([EInput "You: ";
                       EPrint (nl +:+ "🤔 Searching memory and thinking..." +:+ nl);
                       ERetrieve (vectorstore (chain_retriever chain))
                         (default 4 (search_kwargs (chain_retriever chain) !! "k"))
                         (strip line)] ++
                      model ++
                      [EPrint ("❌ Error: " +:+ exn_str e +:+ nl)])))
    as (evs & Hevs & _ & _ & Hhead).
  destruct evs as [| ev rest]; [done |]. injection Hhead as ->.
  exists model, rest. split; [exact Hmodel |]. split; [| split; [| exact Hstep]].
  - rewrite Hstep, Hevs, log_app. f_equal.
    cbn [app]. rewrite <- !app_assoc. done.
  - rewrite Hstep. apply query_loop_outcome.
Qed.

Lemma query_loop_survives_errors_witness :
  ∃ model rest,
    (model = [] ∨ ∃ prompt, model = [EGenerate (chain_llm demo_chain) prompt]) ∧
    snd (query_loop search_down demo_repr chat_answers demo_chain
           ["  where are the logs? "; "quit"] empty_world) =
      log empty_world
        ([EInput "You: ";
          EPrint (nl +:+ "🤔 Searching memory and thinking..." +:+ nl);
          ERetrieve (vectorstore (chain_retriever demo_chain))
            (default 4 (search_kwargs (chain_retriever demo_chain) !! "k"))
            (strip "  where are the logs? ")] ++
         model ++
         [EPrint ("❌ Error: " +:+ "Failed to connect to Ollama" +:+ nl);
          EInput "You: "] ++
         rest) ∧
    fst (query_loop search_down demo_repr chat_answers demo_chain
           ["  where are the logs? "; "quit"] empty_world) =
      (if existsb is_quit ["quit"] then Return tt else Raise eof_error) ∧
    query_loop search_down demo_repr chat_answers demo_chain
      ["  where are the logs? "; "quit"] empty_world =
      query_loop search_down demo_repr chat_answers demo_chain ["quit"]
        (log empty_world
           ([EInput "You: ";
             EPrint (nl +:+ "🤔 Searching memory and thinking..." +:+ nl);
             ERetrieve (vectorstore (chain_retriever demo_chain))
               (default 4 (search_kwargs (chain_retriever demo_chain) !! "k"))
               (strip "  where are the logs? ")] ++
            model ++
            [EPrint ("❌ Error: " +:+ "Failed to connect to Ollama" +:+ nl)])).
Proof.
  apply (query_loop_survives_errors search_down demo_repr chat_answers demo_chain
           "  where are the logs? " ["quit"] empty_world
           (Exn "ConnectionError" "Failed to connect to Ollama")).
  - vm_compute. discriminate.
  - vm_compute. discriminate.
  - vm_compute. reflexivity.
Defined.

(** C5: whenever the query script's initialisation returns, the retriever
    it returns, which is the one its chain uses, carries k = 5, and every
    question put to it is one search of the store for the 5 nearest
    results. *)
Theorem retriever_asks_for_five
    (similarity_search :
       Chroma → list VectorRecord → string → Z → exn + list Document)
    (env : gmap string string) (w w' w0 : World)
    (llm : ChatOllama) (retriever : Retriever) (question : string) :
  initialize_rag_system env w = (Return (llm, retriever), w') →
  chain_retriever (create_rag_chain llm retriever) = retriever ∧
  search_kwargs retriever !! "k" = Some 5 ∧
  retriever_invoke similarity_search retriever question w0 =
  (match similarity_search (vectorstore retriever)
           (collection w0 (vectorstore retriever)) question 5 with
   | inl e => Raise e
   | inr results => Return results
   end,
   log w0 [ERetrieve (vectorstore retriever) 5 question]).
Proof.
  rewrite initialize_rag_system_run.
  destruct (chroma_refuses w (store_of env)); [done |].
  intros [= <- <- _].
  split; [reflexivity |]. split; [reflexivity |].
  apply retriever_invoke_run.
Qed.

Lemma retriever_asks_for_five_witness :
  initialize_rag_system ∅ empty_world =
    (Return (chat_of ∅, retriever_of ∅), snd (initialize_rag_system ∅ empty_world)) ∧
  search_kwargs (retriever_of ∅) !! "k" = Some 5 ∧
  retriever_invoke search_nothing (retriever_of ∅) "why?" empty_world =
    (Return [], log empty_world [ERetrieve (store_of ∅) 5 "why?"]).
Proof.
  assert (H : initialize_rag_system ∅ empty_world =
              (Return (chat_of ∅, retriever_of ∅),
               snd (initialize_rag_system ∅ empty_world))) by reflexivity.
  split; [exact H |].
  exact (proj2 (retriever_asks_for_five search_nothing ∅ empty_world _ empty_world
                  (chat_of ∅) (retriever_of ∅) "why?" H)).
Defined.

(** C10: the loop handles the stripped line, so a line and its stripped
    form run alike; a line of blanks only costs its prompt and nothing
    else, the chain is not invoked and nothing is printed, and the loop
    goes on with the next line; a line whose stripped form is "quit" in any
    mix of upper and lower case prints the farewell and ends the loop. *)
Theorem query_loop_input_handling
    (similarity_search :
       Chroma → list VectorRecord → string → Z → exn + list Document)
    (repr_document : Document → string)
    (chat : ChatOllama → string → exn + string)
    (chain : Chain) (line blank bye : string) (lines : list string) (w : World) :
  all_space blank = true →
  lower (strip bye) = "quit" →
  query_loop similarity_search repr_document chat chain (line :: lines) w =
    query_loop similarity_search repr_document chat chain (strip line :: lines) w ∧
  query_loop similarity_search repr_document chat chain (blank :: lines) w =
    query_loop similarity_search repr_document chat chain lines
      (log w [EInput "You: "]) ∧
  query_loop similarity_search repr_document chat chain (bye :: lines) w =
    (Return tt, log w [EInput "You: "; EPrint "Goodbye!"]).
Proof.
  intros Hblank Hbye. split; [| split].
  - cbn [query_loop]. by rewrite strip_strip.
  - cbn [query_loop]. rewrite (strip_all_space _ Hblank).
    destruct (decide (lower "" = "quit")) as [| _]; [done |].
    destruct (decide (@eq string "" "")) as [_ |]; [| done].
    unfold bind. by rewrite emit_log.
  - cbn [query_loop]. rewrite Hbye.
    destruct (decide (@eq string "quit" "quit")) as [_ |]; [| done].
    unfold bind. by rewrite emit_log, print_log, log_app.
Qed.

Lemma query_loop_input_handling_witness :
  all_space (String "009" "  ") = true ∧
  lower (strip "  QuIt ") = "quit" ∧
  query_loop search_nothing demo_repr chat_answers demo_chain
    ["  hello  "; "never read"] empty_world =
  query_loop search_nothing demo_repr chat_answers demo_chain
    [strip "  hello  "; "never read"] empty_world ∧
  query_loop search_nothing demo_repr chat_answers demo_chain
    [String "009" "  "; "never read"] empty_world =
  query_loop search_nothing demo_repr chat_answers demo_chain ["never read"]
    (log empty_world [EInput "You: "]) ∧
  query_loop search_nothing demo_repr chat_answers demo_chain
    ["  QuIt "; "never read"] empty_world =
  (Return tt, log empty_world [EInput "You: "; EPrint "Goodbye!"]).
Proof.
  assert (H1 : all_space (String "009" "  ") = true) by reflexivity.
  assert (H2 : lower (strip "  QuIt ") = "quit") by reflexivity.
  split; [exact H1 |]. split; [exact H2 |].
  exact (query_loop_input_handling search_nothing demo_repr chat_answers demo_chain
           "  hello  " (String "009" "  ") "  QuIt " ["never read"] empty_world
           H1 H2).
Defined.

(** ** Worked runs *)

(** A setup run over the small vault, with no model or store setting in
    the environment: the store it returns and the objects it builds are the
    defaults, and its last line prints the missing location as "None". *)
Example setup_vector_database_defaults :
  let run := setup_vector_database (demo_vault "alpha") demo_split demo_embed
               demo_env empty_world in
  fst run = Return (Some (store_of ∅)) ∧
  trace (snd run) !! 14%nat =
    Some (ENewEmbeddings {| emb_model := "nomic-embed-text";
                            emb_base_url := "http://localhost:11434" |}) ∧
  trace (snd run) !! 17%nat =
    Some (ENewChroma {| persist_directory := "./chroma_data";
                        embedding_function :=
                          {| emb_model := "nomic-embed-text";
                             emb_base_url := "http://localhost:11434" |};
                        collection_name := "project-memory" |}) ∧
  trace (snd run) !! 21%nat = Some (EPrint ("📦 Saved to: None" +:+ nl)).
Proof. vm_compute. repeat split. Qed.

(** The filter of line 40 stands outside the inner [try]: an entry of the
    listing that has no path raises there, the outer handler takes over, and
    the load returns nothing although a.md had been read. *)
Example a_malformed_listing :
  fst (load_from_path demo_vault_malformed demo_loader "Daily/" empty_world) = Return [] ∧
  filter (λ ev, is_print ev = true)
         (trace (snd (load_from_path demo_vault_malformed demo_loader "Daily/"
                        empty_world))) =
  [EPrint "✅ Loaded: Daily/2024-05-01/a.md"; EPrint "❌ Error: 'path'"].
Proof. vm_compute. split; reflexivity. Qed.

(** Every way of writing the exit command in upper and lower case ends the
    loop, and a longer word does not. *)
Example quit_in_any_case :
  Forall (λ s, lower (strip s) = "quit")
    ["quit"; "Quit"; "qUit"; "quIt"; "quiT"; "QUit"; "QuIt"; "QuiT";
     "qUIt"; "qUiT"; "quIT"; "QUIt"; "QUiT"; "QuIT"; "qUIT"; "QUIT";
     "  quit"; "QUIT  "] ∧
  lower (strip "quit now") ≠ "quit".
Proof. split; [by repeat constructor | by vm_compute]. Qed.

(** A whole session: a blank line, a question the store cannot serve, a
    question it can, the exit command; the line after it is never read. *)
Example a_session :
  let run := query_loop
               (λ c records question k,
                  if decide (question = "first") then search_down c records question k
                  else search_nothing c records question k)
               demo_repr chat_answers demo_chain
               ["   "; "first"; " second "; "QUIT"; "third"] empty_world in
  fst run = Return tt ∧
  filter (λ ev, is_print ev = true ∨ is_chain_event ev = true)
         (trace (snd run)) =
  [EPrint (nl +:+ "🤔 Searching memory and thinking..." +:+ nl);
   ERetrieve (store_of ∅) 5 "first";
   EPrint ("❌ Error: Failed to connect to Ollama" +:+ nl);
   EPrint (nl +:+ "🤔 Searching memory and thinking..." +:+ nl);
   ERetrieve (store_of ∅) 5 "second";
   EGenerate (chat_of ∅)
     ("You are a technical assistant with access to project memory." +:+ nl +:+
      "Based on the following context from previous work sessions, answer the question." +:+ nl +:+
      nl +:+ "Context:" +:+ nl +:+ "[]" +:+ nl +:+ nl +:+
      "Question: second" +:+ nl +:+ nl +:+
      "Answer with specific details, commands, configurations, and recommendations when relevant:");
   EPrint ("Assistant: I do not know." +:+ nl);
   EPrint "Goodbye!"].
Proof. vm_compute. split; reflexivity. Qed.

(** The same when it is the model that fails: the search is made, the
    prompt is handed over, the error is printed and the loop goes on. *)
Example a_failed_answer :
  query_loop search_nothing demo_repr chat_down demo_chain ["why?"; "quit"] empty_world =
  query_loop search_nothing demo_repr chat_down demo_chain ["quit"]
    (log empty_world
       [EInput "You: ";
        EPrint (nl +:+ "🤔 Searching memory and thinking..." +:+ nl);
        ERetrieve (store_of ∅) 5 "why?";
        EGenerate (chat_of ∅)
          ("You are a technical assistant with access to project memory." +:+ nl +:+
           "Based on the following context from previous work sessions, answer the question." +:+ nl +:+
           nl +:+ "Context:" +:+ nl +:+ "[]" +:+ nl +:+ nl +:+
           "Question: why?" +:+ nl +:+ nl +:+
           "Answer with specific details, commands, configurations, and recommendations when relevant:");
        EPrint ("❌ Error: Failed to connect to Ollama" +:+ nl)]).
Proof. vm_compute. reflexivity. Qed.

(** A store that does not open: the collection is to be named "c", a
    name the store refuses.  The query script raises the store's error
    after its banner and the line that announces the initialisation; no
    chat model is built and no line is read. *)
Example a_store_that_does_not_open :
  let refused := Exn "InvalidArgumentError" "Validation error: name" in
  let env : gmap string string := {[ "COLLECTION_NAME" := "c" ]} in
  let w := {| trace := []; chroma_db := ∅;
              chroma_refuses := λ c, if decide (collection_name c = "c")
                                     then Some refused else None;
              chroma_rejects := λ _ _, None |} in
  let run := main search_nothing demo_repr chat_answers env ["why?"; "quit"] w in
  fst run = Raise refused ∧
  trace (snd run) =
    [EPrint (repeat_char "=" 60);
     EPrint "🚀 Local RAG System - Technical Memory Assistant";
     EPrint (repeat_char "=" 60);
     EPrint ("Type 'quit' to exit" +:+ nl);
     EPrint ("🔄 Initializing RAG system..." +:+ nl);
     ENewEmbeddings (embedding_function (store_of env));
     ENewChroma (store_of env)].
Proof. vm_compute. split; reflexivity. Qed.

(** A daily note that splits into no chunk: [add_documents] is handed an
    empty list, the store raises, and the update ends with that error, the
    store as it was. *)
Example an_update_without_chunks :
  let run := add_new_documents_to_memory (demo_vault "alpha") (λ _ _, inr [])
               demo_embed "2024-05-01" demo_env empty_world in
  fst run = Raise (Exn "ValueError" "Expected IDs to be a non-empty list, got 0 IDs") ∧
  collection (snd run) (store_of demo_env) = [] ∧
  last (trace (snd run)) = Some (EStoreAdd (store_of demo_env) []).
Proof. vm_compute. repeat split. Qed.

(** ** More on the loader *)

(** Whatever the vault does, [load_from_path] returns a list and never
    raises, and it leaves the vector store as it found it: all it adds to
    the world is requests and printed lines. *)
Theorem load_from_path_never_raises
    (requests_get : string → gmap string string → exn + Response)
    (self : ObsidianDocumentLoader) (folder_path : string) (w : World) :
  ∃ documents evs,
    load_from_path requests_get self folder_path w = (Return documents, log w evs) ∧
    Forall (λ ev, is_print ev = true ∨ is_Some (request_url ev)) evs.
Proof.
  eexists _, _. split; [apply load_from_path_run |].
  eapply Forall_impl; [apply loader_events_spec |].
  intros [] H; try done; [by left | by right].
Qed.

(** For a listing whose entries all have a string path, [load_from_path]
    returns, in the order of the listing, one document for each entry whose
    path passes the filter and whose read yields a document (an answer with
    status 200 that decodes and has a content that is a string), and
    nothing for the others.  Its trace is the listing request and then, for
    each entry that passes the filter, in order, one read request followed
    by the line that reports the document or the warning that reports the
    error, or by nothing when the answer had another status. *)
Theorem load_from_path_follows_listing
    (requests_get : string → gmap string string → exn + Response)
    (self : ObsidianDocumentLoader) (folder_path : string) (w : World)
    (r : Response) (files : pyval) (items : list pyval) :
  requests_get (vault_url self) (auth_headers self) = inr r →
  status_code r = 200 →
  json r = inr files →
  py_iter files = inr items →
  Forall (λ file, is_Some (entry_path file)) items →
  load_from_path requests_get self folder_path w =
  (Return (flat_map (entry_documents requests_get self folder_path) items),
   log w (vault_request self ::
          flat_map (entry_events requests_get self folder_path) items)).
Proof. apply load_from_path_listing. Qed.

Lemma load_from_path_follows_listing_witness :
  load_from_path (demo_vault "alpha") demo_loader "Daily/" empty_world =
  (Return [make_document demo_loader "Daily/2024-05-01/a.md" (PStr "alpha");
           make_document demo_loader "Daily/2024-05-01/c.md" (PStr "gamma")],
   log empty_world
     [vault_request demo_loader;
      read_request demo_loader "Daily/2024-05-01/a.md";
      EPrint "✅ Loaded: Daily/2024-05-01/a.md";
      read_request demo_loader "Daily/2024-05-01/b.md";
      EPrint "⚠️ Error loading Daily/2024-05-01/b.md: Read timed out.";
      read_request demo_loader "Daily/2024-05-01/c.md";
      EPrint "✅ Loaded: Daily/2024-05-01/c.md"]).
Proof.
  refine (eq_trans
            (load_from_path_follows_listing (demo_vault "alpha") demo_loader
               "Daily/" empty_world
               {| status_code := 200; json := inr (PList demo_listing) |}
               (PList demo_listing) demo_listing
               eq_refl eq_refl eq_refl eq_refl _) _).
  - repeat constructor; by eexists.
  - vm_compute. reflexivity.
Defined.

(** A note whose content is not a string makes no document: the making of
    the document raises inside the inner [try], the warning is printed and
    the note is left out, like any other read that raises. *)
Example a_note_without_text :
  new_document demo_loader "Daily/2024-05-01/a.md" PNone =
    inl (Exn "ValidationError"
           ("1 validation error for Document" +:+ nl +:+ "page_content" +:+ nl +:+
            "  Input should be a valid string")) ∧
  fst (read_file (λ _ _, ok (PDict [("content", PNone)])) demo_loader
         "Daily/2024-05-01/a.md" [] empty_world) = Return [].
Proof. split; vm_compute; reflexivity. Qed.

(** When the read of a selected file is answered with a status other than
    200, in a listing whose entries all have a string path, nothing is
    raised and nothing is printed for it: the load returns the documents
    of the entries before and after it, and its trace is the listing
    request, the events of the entries before, the one request for the
    file, and the events of the entries after. *)
Theorem load_from_path_passes_over_refused_file
    (requests_get : string → gmap string string → exn + Response)
    (self : ObsidianDocumentLoader) (folder_path : string) (w : World)
    (r answer : Response) (files : pyval) (pre post : list pyval) (gone : pyval)
    (path : string) :
  requests_get (vault_url self) (auth_headers self) = inr r →
  status_code r = 200 →
  json r = inr files →
  py_iter files = inr (pre ++ gone :: post) →
  Forall (λ file, is_Some (entry_path file)) (pre ++ post) →
  py_getitem gone "path" = inr (PStr path) →
  selected folder_path path = true →
  requests_get (read_url self path) (auth_headers self) = inr answer →
  status_code answer ≠ 200 →
  load_from_path requests_get self folder_path w =
  (Return (flat_map (entry_documents requests_get self folder_path) pre ++
           flat_map (entry_documents requests_get self folder_path) post),
   log w (vault_request self ::
          flat_map (entry_events requests_get self folder_path) pre ++
          [read_request self path] ++
          flat_map (entry_events requests_get self folder_path) post)).
Proof.
  intros H Hs Hj Hi Hall Hp Hsel Hread Hstatus.
  assert (Hgone : entry_path gone = Some path) by (unfold entry_path; by rewrite Hp).
  assert (Hres : read_result requests_get self path = inr None).
  { unfold read_result. rewrite Hread.
    by destruct (Z.eqb_spec (status_code answer) 200). }
  apply Forall_app in Hall as [Hpre Hpost].
  rewrite (load_from_path_listing requests_get self folder_path w r files
             (pre ++ gone :: post) H Hs Hj Hi).
  - rewrite !flat_map_app. cbn [flat_map].
    unfold entry_documents at 2, entry_events at 2.
    rewrite Hgone, Hsel. unfold read_documents, read_lines. rewrite Hres.
    cbn [app]. done.
  - apply Forall_app. split; [done |]. constructor; [by eexists | done].
Qed.

Lemma load_from_path_passes_over_refused_file_witness :
  load_from_path demo_vault_gone demo_loader "Daily/" empty_world =
  (Return [make_document demo_loader "Daily/2024-05-01/a.md" (PStr "alpha");
           make_document demo_loader "Daily/2024-05-01/c.md" (PStr "gamma")],
   log empty_world
     [vault_request demo_loader;
      read_request demo_loader "Daily/2024-05-01/a.md";
      EPrint "✅ Loaded: Daily/2024-05-01/a.md";
      read_request demo_loader "Daily/2024-05-01/e.md";
      read_request demo_loader "Daily/2024-05-01/c.md";
      EPrint "✅ Loaded: Daily/2024-05-01/c.md"]).
Proof.
  refine (eq_trans
            (load_from_path_passes_over_refused_file demo_vault_gone demo_loader
               "Daily/" empty_world
               {| status_code := 200;
                  json := inr (PList [file_entry "Daily/2024-05-01/a.md";
                                      file_entry "Daily/2024-05-01/e.md";
                                      file_entry "Daily/2024-05-01/c.md"]) |}
               {| status_code := 404;
                  json := inl (Exn "JSONDecodeError"
                                 "Expecting value: line 1 column 1 (char 0)") |}
               (PList [file_entry "Daily/2024-05-01/a.md";
                       file_entry "Daily/2024-05-01/e.md";
                       file_entry "Daily/2024-05-01/c.md"])
               [file_entry "Daily/2024-05-01/a.md"]
               [file_entry "Daily/2024-05-01/c.md"]
               (file_entry "Daily/2024-05-01/e.md") "Daily/2024-05-01/e.md"
               eq_refl eq_refl eq_refl eq_refl _ eq_refl eq_refl eq_refl _) _).
  - repeat constructor; by eexists.
  - discriminate.
  - vm_compute. reflexivity.
Defined.

(** An entry of the listing that has no path, or whose path is no string,
    makes line 40 raise outside the inner [try]: the load ends there, the
    documents read from the entries before it are dropped, and the result
    is the empty list after one printed line with the error. *)
Theorem load_from_path_gives_up_on_malformed_entry
    (requests_get : string → gmap string string → exn + Response)
    (self : ObsidianDocumentLoader) (folder_path : string) (w w1 : World)
    (r : Response) (files : pyval) (pre post : list pyval) (bad : pyval)
    (documents1 : list Document) (e : exn) :
  requests_get (vault_url self) (auth_headers self) = inr r →
  status_code r = 200 →
  json r = inr files →
  py_iter files = inr (pre ++ bad :: post) →
  entry_error bad = Some e →
  for_files requests_get self folder_path pre [] (log w [vault_request self]) =
    (Return documents1, w1) →
  load_from_path requests_get self folder_path w =
  (Return [], log w1 [EPrint ("❌ Error: " +:+ exn_str e)]).
Proof.
  intros H Hs Hj Hi Hbad Hpre.
  unfold load_from_path. run. rewrite H. run. rewrite Hs. run.
  rewrite Hj. run. rewrite Hi. run. rewrite for_files_app.
  unfold vault_request in Hpre. rewrite Hpre. run.
  rewrite (load_file_entry_error _ _ _ _ _ _ _ Hbad). by run.
Qed.

Lemma load_from_path_gives_up_on_malformed_entry_witness :
  for_files demo_vault_malformed demo_loader "Daily/"
    [file_entry "Daily/2024-05-01/a.md"] []
    (log empty_world [vault_request demo_loader]) =
  (Return [make_document demo_loader "Daily/2024-05-01/a.md" (PStr "alpha")],
   log empty_world
     [vault_request demo_loader;
      read_request demo_loader "Daily/2024-05-01/a.md";
      EPrint "✅ Loaded: Daily/2024-05-01/a.md"]) ∧
  load_from_path demo_vault_malformed demo_loader "Daily/" empty_world =
  (Return [],
   log (log empty_world
          [vault_request demo_loader;
           read_request demo_loader "Daily/2024-05-01/a.md";
           EPrint "✅ Loaded: Daily/2024-05-01/a.md"])
       [EPrint ("❌ Error: " +:+ "'path'")]).
Proof.
  assert (H : for_files demo_vault_malformed demo_loader "Daily/"
                [file_entry "Daily/2024-05-01/a.md"] []
                (log empty_world [vault_request demo_loader]) =
              (Return [make_document demo_loader "Daily/2024-05-01/a.md" (PStr "alpha")],
               log empty_world
                 [vault_request demo_loader;
                  read_request demo_loader "Daily/2024-05-01/a.md";
                  EPrint "✅ Loaded: Daily/2024-05-01/a.md"])).
  { vm_compute. reflexivity. }
  split; [exact H |].
  exact (load_from_path_gives_up_on_malformed_entry demo_vault_malformed
           demo_loader "Daily/" empty_world _ _ _
           [file_entry "Daily/2024-05-01/a.md"] []
           (PDict [("name", PStr "e.md")]) _ (Exn "KeyError" "'path'")
           eq_refl eq_refl eq_refl eq_refl eq_refl H).
Defined.

(** A listing that is a JSON object with at least one key, not an array,
    loads nothing: the loop visits the keys, which are strings, the first
    one raises at line 40 as a string has no item "path", and the result is
    the empty list after one printed line with that error. *)
Theorem load_from_path_rejects_object_listing
    (requests_get : string → gmap string string → exn + Response)
    (self : ObsidianDocumentLoader) (folder_path : string) (w : World)
    (r : Response) (key : string) (value : pyval) (kv : list (string * pyval)) :
  requests_get (vault_url self) (auth_headers self) = inr r →
  status_code r = 200 →
  json r = inr (PDict ((key, value) :: kv)) →
  ∃ e,
    py_getitem (PStr key) "path" = inl e ∧
    load_from_path requests_get self folder_path w =
    (Return [], log w [vault_request self; EPrint ("❌ Error: " +:+ exn_str e)]).
Proof.
  intros H Hs Hj. eexists. split; [reflexivity |].
  unfold load_from_path. run. rewrite H. run. rewrite Hs. run.
  rewrite Hj. run.
  rewrite (load_file_entry_error _ _ _ (PStr key) _ _ _ eq_refl).
  by run.
Qed.

Lemma load_from_path_rejects_object_listing_witness :
  ∃ e,
    py_getitem (PStr "files") "path" = inl e ∧
    load_from_path demo_vault_object demo_loader "Daily/" empty_world =
    (Return [],
     log empty_world [vault_request demo_loader; EPrint ("❌ Error: " +:+ exn_str e)]).
Proof.
  exact (load_from_path_rejects_object_listing demo_vault_object demo_loader
           "Daily/" empty_world _ "files" (PList demo_listing) []
           eq_refl eq_refl eq_refl).
Defined.

(** Every document the loader returns carries exactly three metadata
    keys: its source, the vault name the loader was built with ([None] when
    the environment had none) and the type "documentation". *)
Theorem loaded_documents_metadata
    (requests_get : string → gmap string string → exn + Response)
    (self : ObsidianDocumentLoader) (folder_path : string) :
  Forall (λ d, dom (metadata d) = ({[ "source"; "vault"; "type" ]} : gset string) ∧
               metadata d !! "vault" = Some (opt_val (vault_name self)) ∧
               metadata d !! "type" = Some (PStr "documentation"))
         (loaded_documents requests_get self folder_path).
Proof.
  pose proof (load_from_path_run requests_get self folder_path empty_world) as Hrun.
  revert Hrun. unfold load_from_path. run.
  assert (Hnil : Forall (λ d, dom (metadata d) = ({[ "source"; "vault"; "type" ]} : gset string) ∧
               metadata d !! "vault" = Some (opt_val (vault_name self)) ∧
               metadata d !! "type" = Some (PStr "documentation")) []) by constructor.
  destruct (requests_get _ _) as [e | r] eqn:H; run; [by intros [= <- _] |].
  destruct (Z.eqb_spec (status_code r) 200) as [Hs | Hs]; run;
    [| by intros [= <- _]].
  destruct (json r) as [e | files] eqn:Hj; run; [by intros [= <- _] |].
  destruct (py_iter files) as [e | items] eqn:Hi; run; [by intros [= <- _] |].
  destruct (for_files _ _ _ _ _ _) as [[documents1 | e] w1] eqn:Hloop; run;
    [| by intros [= <- _]].
  intros [= <- _].
  eapply for_files_made_from in Hloop; [| done | constructor].
  eapply Forall_impl; [exact Hloop |].
  intros d (file & path & content & _ & _ & _ & _ & ->). cbn.
  split; [| split].
  - rewrite !dom_insert_L, dom_singleton_L. set_solver.
  - rewrite lookup_insert_ne; [| done]. by rewrite lookup_insert_eq.
  - rewrite !lookup_insert_ne; [| done..]. by rewrite lookup_singleton_eq.
Qed.

(** ** More on the ingestion scripts *)

Section PipelineMore.

Variable requests_get : string -> gmap string string -> exn + Response.
Variable split_documents :
  RecursiveCharacterTextSplitter -> list Document -> exn + list Document.
Variable embed : OllamaEmbeddings -> pyval -> exn + list Q.
Variable today_date : string.


Lemma setup_vector_database_grows env :
  steps store_grows
        (setup_vector_database requests_get split_documents embed env).
Proof.
  unfold setup_vector_database, load_all_vault, from_documents, print, split,
    new_embeddings, new_chroma.
  apply steps_bind; [apply _ | apply steps_emit_grows | intros _].
  apply steps_bind; [apply _ | apply steps_emit_grows | intros _].
  apply steps_bind; [apply _ | apply load_from_path_grows | intros documents].
  destruct documents as [| d documents]; steps_split;
    first [apply steps_emit_grows | apply add_documents_grows].
Qed.

End PipelineMore.

(** The full-vault setup does not start from an empty store: when it
    loads its documents, splits them into at least one chunk and embeds the
    chunks, with a store that opens and does not reject the records, it
    returns the store it wrote to, and that collection holds every record
    it held before, in the same order, followed by one new record per
    chunk, each in the form the store keeps it.  Run twice, it stores every
    chunk twice. *)
Theorem setup_vector_database_appends
    (requests_get : string → gmap string string → exn + Response)
    (split_documents :
       RecursiveCharacterTextSplitter → list Document → exn + list Document)
    (embed : OllamaEmbeddings → pyval → exn + list Q)
    (env : gmap string string) (w : World)
    (chunks : list Document) (records : list VectorRecord) :
  loaded_documents requests_get (__init__ env) "" ≠ [] →
  split_documents setup_splitter
    (loaded_documents requests_get (__init__ env) "") = inr chunks →
  chunks ≠ [] →
  embed_all embed (embedding_function (store_of env)) chunks = inr records →
  chroma_refuses w (store_of env) = None →
  chroma_rejects w (store_of env) records = None →
  ∃ w',
    setup_vector_database requests_get split_documents embed env w =
    (Return (Some (store_of env)), w') ∧
    collection w' (store_of env) =
      collection w (store_of env) ++ map stored records ∧
    map chunk (map stored records) = map stored_chunk chunks.
Proof.
  intros Hdocs Hsplit Hchunks Hembed Hopen Hadd.
  unfold setup_vector_database, load_all_vault. run. rewrite load_from_path_run.
  destruct (loaded_documents _ _ _) as [| d documents] eqn:Hload; [done |].
  run. rewrite split_run. fold setup_splitter. rewrite Hsplit.
  unfold new_embeddings, from_documents. run. rewrite new_chroma_run.
  fold (store_of env). rewrite chroma_refuses_log, Hopen. run.
  match goal with
  | |- context [add_documents embed (store_of env) chunks ?w0] =>
      destruct (add_documents_run embed (store_of env) chunks records w0
                  Hembed Hchunks Hadd)
        as (w1 & -> & _ & Hcoll)
  end.
  run. eexists. split; [reflexivity |]. split.
  - by rewrite collection_log, Hcoll, collection_log.
  - rewrite <- (embed_all_chunks embed _ _ _ Hembed), !map_map. done.
Qed.

Lemma setup_vector_database_appends_witness :
  ∃ w',
    setup_vector_database (demo_vault "alpha") demo_split demo_embed demo_env
      first_ingestion = (Return (Some (store_of demo_env)), w') ∧
    collection w' (store_of demo_env) =
      collection first_ingestion (store_of demo_env) ++
      map stored [demo_record "Daily/2024-05-01/a.md" "alpha";
                  demo_record "Daily/2024-05-01/c.md" "gamma"] ∧
    map chunk (map stored [demo_record "Daily/2024-05-01/a.md" "alpha";
                           demo_record "Daily/2024-05-01/c.md" "gamma"]) =
      map stored_chunk
        [make_document demo_loader "Daily/2024-05-01/a.md" (PStr "alpha");
         make_document demo_loader "Daily/2024-05-01/c.md" (PStr "gamma")].
Proof.
  apply (setup_vector_database_appends (demo_vault "alpha") demo_split demo_embed
           demo_env first_ingestion).
  - vm_compute. discriminate.
  - vm_compute. reflexivity.
  - discriminate.
  - vm_compute. reflexivity.
  - reflexivity.
  - reflexivity.
Defined.

(** The setup returns [None] exactly when the loader returned no document;
    with documents it either raises or returns the store. *)
Theorem setup_vector_database_none_iff
    (requests_get : string → gmap string string → exn + Response)
    (split_documents :
       RecursiveCharacterTextSplitter → list Document → exn + list Document)
    (embed : OllamaEmbeddings → pyval → exn + list Q)
    (env : gmap string string) (w : World) :
  fst (setup_vector_database requests_get split_documents embed env w) = Return None ↔
  loaded_documents requests_get (__init__ env) "" = [].
Proof.
  unfold setup_vector_database, load_all_vault. run. rewrite load_from_path_run.
  destruct (loaded_documents _ _ _) as [| d documents] eqn:Hload; run; [done |].
  split; [| done]. rewrite split_run.
  destruct (split_documents _ _) as [e | chunks]; run; [done |].
  unfold new_embeddings, from_documents. run. rewrite new_chroma_run.
  destruct (chroma_refuses _ _); run; [done |].
  destruct (add_documents _ _ _ _) as [[[] | e] w1]; by run.
Qed.

(** When the splitter raises, the setup raises the same error at once: no
    embedding provider is built, no store is opened, nothing is stored. *)
Theorem setup_vector_database_split_failure
    (requests_get : string → gmap string string → exn + Response)
    (split_documents :
       RecursiveCharacterTextSplitter → list Document → exn + list Document)
    (embed : OllamaEmbeddings → pyval → exn + list Q)
    (env : gmap string string) (w : World) (e : exn) :
  loaded_documents requests_get (__init__ env) "" ≠ [] →
  split_documents setup_splitter
    (loaded_documents requests_get (__init__ env) "") = inl e →
  ∃ evs,
    setup_vector_database requests_get split_documents embed env w =
    (Raise e, log w evs) ∧
    Forall quiet evs.
Proof.
  intros Hdocs Hsplit.
  unfold setup_vector_database, load_all_vault. run. rewrite load_from_path_run.
  destruct (loaded_documents _ _ _) as [| d documents] eqn:Hload; [done |].
  run. rewrite split_run. fold setup_splitter. rewrite Hsplit. run.
  eexists. split; [reflexivity |].
  repeat (apply Forall_cons; split; [done |]).
  rewrite !Forall_app, !Forall_cons, Forall_nil. repeat split; try done.
  eapply Forall_impl; [apply loader_events_spec |]. apply loader_event_quiet.
Qed.

Lemma setup_vector_database_split_failure_witness :
  ∃ evs,
    setup_vector_database (demo_vault "alpha") split_fails demo_embed demo_env
      empty_world =
    (Raise (Exn "ValueError" "chunk overlap larger than chunk size"),
     log empty_world evs) ∧
    Forall quiet evs.
Proof.
  apply (setup_vector_database_split_failure (demo_vault "alpha") split_fails
           demo_embed demo_env empty_world).
  - vm_compute. discriminate.
  - reflexivity.
Defined.



(** Neither ingestion script ever takes a record out of a collection or
    moves one: after any run, ended well or raised, every collection begins
    with the records it held before, in their order. *)
Theorem ingestion_never_removes
    (requests_get : string → gmap string string → exn + Response)
    (split_documents :
       RecursiveCharacterTextSplitter → list Document → exn + list Document)
    (embed : OllamaEmbeddings → pyval → exn + list Q)
    (today_date : string) (env : gmap string string) (w : World) (c : Chroma) :
  collection w c `prefix_of`
    collection (snd (setup_vector_database requests_get split_documents embed
                       env w)) c ∧
  collection w c `prefix_of`
    collection (snd (add_new_documents_to_memory requests_get split_documents
                       embed today_date env w)) c.
Proof.
  split.
  - apply setup_vector_database_grows.
  - apply add_new_documents_to_memory_grows.
Qed.

(** ** More on the query script *)


(** Building the prompt never fails, whatever was retrieved and whatever
    is asked: the prompt is the template with the text of the result list
    in the place of the context and the question, taken as it is, in the
    place of the question; braces in either are not read as fields. *)
Theorem prompt_is_filled_template
    (repr_document : Document → string)
    (results : list Document) (question : string) :
  assemble repr_document template results question =
  inr ("You are a technical assistant with access to project memory." +:+ nl +:+
       "Based on the following context from previous work sessions, answer the question." +:+ nl +:+
       nl +:+
       "Context:" +:+ nl +:+
       context_block repr_document results +:+ nl +:+
       nl +:+
       "Question: " +:+ question +:+ nl +:+
       nl +:+
       "Answer with specific details, commands, configurations, and recommendations when relevant:").
Proof.
  unfold assemble, format. generalize (context_block repr_document results).
  intros block. vm_compute. reflexivity.
Qed.

(** A question the chain can serve costs one search of the store and one
    call of the model, with the prompt built from the results and the
    stripped line: the run of the loop from that line holds, in this order,
    its prompt, the line that announces the search, the search, the call of
    the model, the answer printed after "Assistant: ", and the next prompt;
    it ends as the loop on the remaining lines ends, and from the answer on
    it is that loop. *)
Theorem query_loop_answers
    (similarity_search :
       Chroma → list VectorRecord → string → Z → exn + list Document)
    (repr_document : Document → string)
    (chat : ChatOllama → string → exn + string)
    (chain : Chain) (line : string) (lines : list string) (w : World)
    (results : list Document) (prompt answer : string) :
  strip line ≠ "" →
  lower (strip line) ≠ "quit" →
  similarity_search (vectorstore (chain_retriever chain))
    (collection w (vectorstore (chain_retriever chain))) (strip line)
    (default 4 (search_kwargs (chain_retriever chain) !! "k")) = inr results →
  assemble repr_document (chain_prompt chain) results (strip line) = inr prompt →
  chat (chain_llm chain) prompt = inr answer →
  ∃ rest,
    snd (query_loop similarity_search repr_document chat chain (line :: lines) w) =
      log w ([EInput "You: ";
              EPrint (nl +:+ "🤔 Searching memory and thinking..." +:+ nl);
              ERetrieve (vectorstore (chain_retriever chain))
                (default 4 (search_kwargs (chain_retriever chain) !! "k"))
                (strip line);
              EGenerate (chain_llm chain) prompt;
              EPrint ("Assistant: " +:+ answer +:+ nl);
              EInput "You: "] ++ rest) ∧
    fst (query_loop similarity_search repr_document chat chain (line :: lines) w) =
      (if existsb is_quit lines then Return tt else Raise eof_error) ∧
    query_loop similarity_search repr_document chat chain (line :: lines) w =
      query_loop similarity_search repr_document chat chain lines
        (log w [EInput "You: ";
                EPrint (nl +:+ "🤔 Searching memory and thinking..." +:+ nl);
                ERetrieve (vectorstore (chain_retriever chain))
                  (default 4 (search_kwargs (chain_retriever chain) !! "k"))
                  (strip line);
                EGenerate (chain_llm chain) prompt;
                EPrint ("Assistant: " +:+ answer +:+ nl)]).
Proof.
  intros Hne Hquit Hsearch Hprompt Hchat.
  assert (Hstep :
    query_loop similarity_search repr_document chat chain (line :: lines) w =
    query_loop similarity_search repr_document chat chain lines
      (log w [EInput "You: ";
              EPrint (nl +:+ "🤔 Searching memory and thinking..." +:+ nl);
              ERetrieve (vectorstore (chain_retriever chain))
                (default 4 (search_kwargs (chain_retriever chain) !! "k"))
                (strip line);
              EGenerate (chain_llm chain) prompt;
              EPrint ("Assistant: " +:+ answer +:+ nl)])).
  { cbn [query_loop].
    destruct (decide (lower (strip line) = "quit")) as [| _]; [done |].
    destruct (decide (strip line = "")) as [| _]; [done |].
    unfold bind at 1. rewrite emit_log.
    unfold bind at 1. rewrite print_log, log_app. cbn [app].
    unfold bind at 1, try_except. unfold bind at 1.
    unfold chain_invoke, llm_invoke, bind.
    rewrite retriever_invoke_run, collection_log, Hsearch, Hprompt. cbn.
    rewrite emit_log, Hchat. cbn. by rewrite print_log, !log_app. }
  match type of Hstep with
  | _ = query_loop _ _ _ _ _ ?w0 =>
      destruct (query_loop_trace similarity_search repr_document chat chain lines w0)
        as (evs & Hevs & _ & _ & Hhead)
  end.
  destruct evs as [| ev rest]; [done |]. injection Hhead as ->.
  exists rest. split; [| split; [| exact Hstep]].
  - by rewrite Hstep, Hevs, log_app.
  - rewrite Hstep. apply query_loop_outcome.
Qed.

Lemma query_loop_answers_witness :
  ∃ rest,
    snd (query_loop search_nothing demo_repr chat_answers demo_chain
           [" why? "; "quit"] empty_world) =
      log empty_world
        ([EInput "You: ";
          EPrint (nl +:+ "🤔 Searching memory and thinking..." +:+ nl);
          ERetrieve (vectorstore (chain_retriever demo_chain))
            (default 4 (search_kwargs (chain_retriever demo_chain) !! "k"))
            (strip " why? ");
          EGenerate (chain_llm demo_chain)
            ("You are a technical assistant with access to project memory." +:+ nl +:+
             "Based on the following context from previous work sessions, answer the question." +:+ nl +:+
             nl +:+ "Context:" +:+ nl +:+ "[]" +:+ nl +:+ nl +:+
             "Question: why?" +:+ nl +:+ nl +:+
             "Answer with specific details, commands, configurations, and recommendations when relevant:");
          EPrint ("Assistant: " +:+ "I do not know." +:+ nl);
          EInput "You: "] ++ rest) ∧
    fst (query_loop search_nothing demo_repr chat_answers demo_chain
           [" why? "; "quit"] empty_world) =
      (if existsb is_quit ["quit"] then Return tt else Raise eof_error) ∧
    query_loop search_nothing demo_repr chat_answers demo_chain
      [" why? "; "quit"] empty_world =
      query_loop search_nothing demo_repr chat_answers demo_chain ["quit"]
        (log empty_world
           [EInput "You: ";
            EPrint (nl +:+ "🤔 Searching memory and thinking..." +:+ nl);
            ERetrieve (vectorstore (chain_retriever demo_chain))
              (default 4 (search_kwargs (chain_retriever demo_chain) !! "k"))
              (strip " why? ");
            EGenerate (chain_llm demo_chain)
              ("You are a technical assistant with access to project memory." +:+ nl +:+
               "Based on the following context from previous work sessions, answer the question." +:+ nl +:+
               nl +:+ "Context:" +:+ nl +:+ "[]" +:+ nl +:+ nl +:+
               "Question: why?" +:+ nl +:+ nl +:+
               "Answer with specific details, commands, configurations, and recommendations when relevant:");
            EPrint ("Assistant: " +:+ "I do not know." +:+ nl)]).
Proof.
  apply (query_loop_answers search_nothing demo_repr chat_answers demo_chain
           " why? " ["quit"] empty_world []).
  - vm_compute. discriminate.
  - vm_compute. discriminate.
  - reflexivity.
  - vm_compute. reflexivity.
  - reflexivity.
Defined.

(** When the search of the store raises, the model is never called: the
    run of the loop from that line holds, in this order, its prompt, the
    line that announces the search, the search, one printed line with the
    error, and the next prompt; it ends as the loop on the remaining lines
    ends, and from the error line on it is that loop. *)
Theorem query_loop_failed_search_skips_model
    (similarity_search :
       Chroma → list VectorRecord → string → Z → exn + list Document)
    (repr_document : Document → string)
    (chat : ChatOllama → string → exn + string)
    (chain : Chain) (line : string) (lines : list string) (w : World) (e : exn) :
  strip line ≠ "" →
  lower (strip line) ≠ "quit" →
  similarity_search (vectorstore (chain_retriever chain))
    (collection w (vectorstore (chain_retriever chain))) (strip line)
    (default 4 (search_kwargs (chain_retriever chain) !! "k")) = inl e →
  ∃ rest,
    snd (query_loop similarity_search repr_document chat chain (line :: lines) w) =
      log w ([EInput "You: ";
              EPrint (nl +:+ "🤔 Searching memory and thinking..." +:+ nl);
              ERetrieve (vectorstore (chain_retriever chain))
                (default 4 (search_kwargs (chain_retriever chain) !! "k"))
                (strip line);
              EPrint ("❌ Error: " +:+ exn_str e +:+ nl);
              EInput "You: "] ++ rest) ∧
    fst (query_loop similarity_search repr_document chat chain (line :: lines) w) =
      (if existsb is_quit lines then Return tt else Raise eof_error) ∧
    query_loop similarity_search repr_document chat chain (line :: lines) w =
      query_loop similarity_search repr_document chat chain lines
        (log w [EInput "You: ";
                EPrint (nl +:+ "🤔 Searching memory and thinking..." +:+ nl);
                ERetrieve (vectorstore (chain_retriever chain))
                  (default 4 (search_kwargs (chain_retriever chain) !! "k"))
                  (strip line);
                EPrint ("❌ Error: " +:+ exn_str e +:+ nl)]).
Proof.
  intros Hne Hquit Hsearch.
  assert (Hstep :
    query_loop similarity_search repr_document chat chain (line :: lines) w =
    query_loop similarity_search repr_document chat chain lines
      (log w [EInput "You: ";
              EPrint (nl +:+ "🤔 Searching memory and thinking..." +:+ nl);
              ERetrieve (vectorstore (chain_retriever chain))
                (default 4 (search_kwargs (chain_retriever chain) !! "k"))
                (strip line);
              EPrint ("❌ Error: " +:+ exn_str e +:+ nl)])).
  { cbn [query_loop].
    destruct (decide (lower (strip line) = "quit")) as [| _]; [done |].
    destruct (decide (strip line = "")) as [| _]; [done |].
    unfold bind at 1. rewrite emit_log.
    unfold bind at 1. rewrite print_log, log_app. cbn [app].
    unfold bind at 1, try_except. unfold bind at 1.
    unfold chain_invoke, bind.
    rewrite retriever_invoke_run, collection_log, Hsearch.
    by rewrite print_log, !log_app. }
  match type of Hstep with
  | _ = query_loop _ _ _ _ _ ?w0 =>
      destruct (query_loop_trace similarity_search repr_document chat chain lines w0)
        as (evs & Hevs & _ & _ & Hhead)
  end.
  destruct evs as [| ev rest]; [done |]. injection Hhead as ->.
  exists rest. split; [| split; [| exact Hstep]].
  - by rewrite Hstep, Hevs, log_app.
  - rewrite Hstep. apply query_loop_outcome.
Qed.

Lemma query_loop_failed_search_skips_model_witness :
  ∃ rest,
    snd (query_loop search_down demo_repr chat_answers demo_chain
           ["why?"; "quit"] empty_world) =
      log empty_world
        ([EInput "You: ";
          EPrint (nl +:+ "🤔 Searching memory and thinking..." +:+ nl);
          ERetrieve (vectorstore (chain_retriever demo_chain))
            (default 4 (search_kwargs (chain_retriever demo_chain) !! "k"))
            (strip "why?");
          EPrint ("❌ Error: " +:+ "Failed to connect to Ollama" +:+ nl);
          EInput "You: "] ++ rest) ∧
    fst (query_loop search_down demo_repr chat_answers demo_chain
           ["why?"; "quit"] empty_world) =
      (if existsb is_quit ["quit"] then Return tt else Raise eof_error) ∧
    query_loop search_down demo_repr chat_answers demo_chain
      ["why?"; "quit"] empty_world =
      query_loop search_down demo_repr chat_answers demo_chain ["quit"]
        (log empty_world
           [EInput "You: ";
            EPrint (nl +:+ "🤔 Searching memory and thinking..." +:+ nl);
            ERetrieve (vectorstore (chain_retriever demo_chain))
              (default 4 (search_kwargs (chain_retriever demo_chain) !! "k"))
              (strip "why?");
            EPrint ("❌ Error: " +:+ "Failed to connect to Ollama" +:+ nl)]).
Proof.
  apply (query_loop_failed_search_skips_model search_down demo_repr chat_answers
           demo_chain "why?" ["quit"] empty_world
           (Exn "ConnectionError" "Failed to connect to Ollama")).
  - vm_compute. discriminate.
  - vm_compute. discriminate.
  - reflexivity.
Defined.


(** The lines after the first exit command are never read: the run is the
    same whatever follows it. *)
Theorem lines_after_quit_are_not_read
    (similarity_search :
       Chroma → list VectorRecord → string → Z → exn + list Document)
    (repr_document : Document → string)
    (chat : ChatOllama → string → exn + string)
    (chain : Chain) (before after : list string) (bye : string) (w : World) :
  is_quit bye = true →
  query_loop similarity_search repr_document chat chain (before ++ bye :: after) w =
  query_loop similarity_search repr_document chat chain (before ++ [bye]) w.
Proof.
  intros Hbye%bool_decide_eq_true_1. revert w.
  induction before as [| line before IH]; intros w.
  - cbn [app query_loop].
    by destruct (decide (lower (strip bye) = "quit")).
  - cbn [app query_loop].
    destruct (decide (lower (strip line) = "quit")); [done |].
    destruct (decide (strip line = "")).
    + unfold bind. rewrite emit_log. apply IH.
    + unfold bind. rewrite emit_log, print_log.
      destruct (try_except _ _ _) as [[[] | e] w1]; [apply IH | done].
Qed.

Lemma lines_after_quit_are_not_read_witness :
  is_quit " Quit" = true ∧
  query_loop search_nothing demo_repr chat_answers demo_chain
    (["why?"; ""] ++ " Quit" :: ["never"; "read"]) empty_world =
  query_loop search_nothing demo_repr chat_answers demo_chain
    (["why?"; ""] ++ [" Quit"]) empty_world.
Proof.
  assert (H : is_quit " Quit" = true) by reflexivity.
  split; [exact H |].
  exact (lines_after_quit_are_not_read search_nothing demo_repr chat_answers
           demo_chain ["why?"; ""] ["never"; "read"] " Quit" empty_world H).
Defined.

